(** * The tiered cache of feedback-dashboard

    A shallow embedding of [middleware/cache.js] (class [CacheService]) and of
    the [cacheMiddleware] decorator listed in PERFORMANCE_OPTIMIZATION.md,
    together with the two stores they drive: the in-process [node-cache]
    instance [memoryCache] and the optional Redis client [redisClient]. *)

From Stdlib Require Import ZArith String Ascii List Bool.
From stdpp Require Import gmap strings.

Local Open Scope string_scope.
Local Open Scope Z_scope.

Set Warnings "-register-all".

(** ** JavaScript values

    The cache stores "serializable payloads".  [value] is the JSON data model;
    a number is an integer.  [undefined] is not a payload: where the code can
    see [undefined] (a miss of [memoryCache.get]) the model uses [option]. *)

Inductive value : Type :=
| VNull
| VBool (b : bool)
| VNum (n : Z)
| VStr (s : string)
| VArr (items : list value)
| VObj (props : list (string * value)).

(** ToBoolean, as applied by [if (memoryResult)], [if (redisResult)] and
    [if (cached)]. *)
Definition truthy (x : value) : bool :=
  match x with
  | VNull => false
  | VBool b => b
  | VNum n => negb (n =? 0)
  | VStr s => negb (String.eqb s "")
  | VArr _ => true
  | VObj _ => true
  end.

(** ToBoolean of something that may be [undefined]. *)
Definition truthy_opt (x : option value) : bool :=
  match x with
  | Some x => truthy x
  | None => false
  end.

(** ToBoolean of what [redisClient.get] resolves to: a string or [null]. *)
Definition truthy_reply (x : option string) : bool :=
  match x with
  | Some s => negb (String.eqb s "")
  | None => false
  end.

(** [CacheService.get] answers a miss with [null]; a caller reads any other
    result as "found". *)
Definition found (x : value) : bool :=
  match x with
  | VNull => false
  | _ => true
  end.

(** ** The host's built-ins

    [JSON.stringify] and [JSON.parse] belong to the language, not to the
    repository: the development is parametric in them.  [JSON_parse] gives
    [None] where the built-in throws a SyntaxError.  So does the relational
    operator: [JS_less_than x n] is [x < n] for a JSON value [x] and a number
    [n], with the conversion of [x] to a number that the language makes (it
    is needed at one place, where node-cache takes a field of a stored value
    for an expiry time).  The comparison is taken to give an answer: an
    object whose conversion throws (one with a [toString] field that is not
    a function) is left out. *)

Class JSON : Type := {
  JSON_stringify : value -> string;
  JSON_parse : string -> option value;
  JS_less_than : value -> Z -> bool
}.

(** ** node-cache: the local tier

    The part of node-cache 5 that [CacheService] drives: an entry is the pair
    [{t, v}] of an absolute expiry time in milliseconds ([0] = never) and the
    stored value; [get] checks the expiry on read and deletes a dead entry.

    The entries are the properties of a plain object, [this.data], and the
    keys [CacheService] passes are not checked, so the object shows through:
    an assignment to the name "__proto__" does not create a property, it
    makes the entry the prototype of [this.data]; [delete] cannot undo that;
    and a name that is not an own property is looked up in the prototype,
    where that entry's fields [t] and [v] and the members of
    [Object.prototype] are found.

    [useClones] is on: a value is copied on its way in and out.  The model
    takes the copy for the value, which it is for JSON data without a field
    named "__proto__". *)

Module NodeCache.

Record Entry : Type := { t : Z; v : value }.

(** [data] holds the own properties of [this.data] and, under "__proto__",
    the entry installed as its prototype (none: [Object.prototype]). *)
Record Cache : Type := {
  stdTTL : Z;
  checkperiod : Z;
  data : gmap string Entry
}.

Definition new (std check : Z) : Cache :=
  {| stdTTL := std; checkperiod := check; data := ∅ |}.

Definition with_data (c : Cache) (d : gmap string Entry) : Cache :=
  {| stdTTL := stdTTL c; checkperiod := checkperiod c; data := d |}.

(** [_wrap(value, ttl)]: ttl in seconds, [None] when the argument is
    missing. *)
Definition _wrap (c : Cache) (now : Z) (val : value) (ttl : option Z) : Entry :=
  let livetime :=
    match ttl with
    | Some ttl => if ttl =? 0 then 0 else now + ttl * 1000
    | None => if stdTTL c =? 0 then 0 else now + stdTTL c * 1000
    end in
  {| t := livetime; v := val |}.

(** [data.t !== 0 && data.t < Date.now()] *)
Definition expired (now : Z) (e : Entry) : bool :=
  negb (t e =? 0) && (t e <? now).

(** [this.data[key] = this._wrap(value, ttl)] *)
Definition set (key : string) (val : value) (ttl : option Z) (now : Z)
    (c : Cache) : Cache :=
  with_data c (<[key := _wrap c now val ttl]> (data c)).

(** [delete this.data[key]]: an own property goes, the prototype stays. *)
Definition remove (key : string) (c : Cache) : Cache :=
  if String.eqb key "__proto__" then c else with_data c (delete key (data c)).

(** The names every plain object inherits from [Object.prototype]
    ("__proto__" apart). *)
Definition Object_prototype_names : list string :=
  ["constructor"; "__defineGetter__"; "__defineSetter__"; "hasOwnProperty";
   "__lookupGetter__"; "__lookupSetter__"; "isPrototypeOf";
   "propertyIsEnumerable"; "toString"; "valueOf"; "toLocaleString"].

(** [x.name] for a JSON object given by its properties; of two properties
    of one name the later counts. *)
Fixpoint property (name : string) (props : list (string * value)) : option value :=
  match props with
  | [] => None
  | (k, x) :: rest =>
      match property name rest with
      | Some y => Some y
      | None => if String.eqb k name then Some x else None
      end
  end.

(** [x !== 0] *)
Definition is_not_zero (x : value) : bool :=
  match x with
  | VNum n => negb (n =? 0)
  | _ => true
  end.

(** Whether [this.data[key] != null] for a name that is not an own
    property. *)
Definition inherits (key : string) (c : Cache) : bool :=
  if String.eqb key "__proto__" || existsb (String.eqb key) Object_prototype_names
  then true
  else
    match data c !! "__proto__" with
    | Some proto =>
        String.eqb key "t" || (String.eqb key "v" && found (v proto))
    | None => false
    end.

Section Reads.
Context `{JSON}.

(** What [get] makes of a stored value [x] that it finds where it expects
    an entry: [_check] reads [x.t], [_unwrap] reads [x.v]. *)
Definition through (x : value) (now : Z) : option value :=
  match x with
  | VNull => None
  | VObj props =>
      let dead :=
        match property "t" props with
        | Some time => is_not_zero time && JS_less_than time now
        | None => false
        end in
      if dead then None
      else Some (default VNull (property "v" props))
  | _ => Some VNull
  end.

(** What [get] answers for a name that is not an own property. *)
Definition inherited (key : string) (now : Z) (c : Cache) : option value :=
  if String.eqb key "__proto__" || existsb (String.eqb key) Object_prototype_names
  then Some VNull
  else
    match data c !! "__proto__" with
    | Some proto =>
        if String.eqb key "t" then Some VNull
        else if String.eqb key "v" then through (v proto) now
        else None
    | None => None
    end.

Definition get (key : string) (now : Z) (c : Cache) : option value * Cache :=
  match data c !! key with
  | Some e =>
      if expired now e
      then (None, remove key c)
      else (Some (v e), c)
  | None => (inherited key now c, c)
  end.

Definition has (key : string) (now : Z) (c : Cache) : bool * Cache :=
  match data c !! key with
  | Some e =>
      if expired now e
      then (false, remove key c)
      else (true, c)
  | None => (match inherited key now c with Some _ => true | None => false end, c)
  end.

End Reads.

(** [del(key)] answers the number of entries it took for deleted. *)
Definition del (key : string) (c : Cache) : Z * Cache :=
  match data c !! key with
  | Some _ => (1, remove key c)
  | None => (if inherits key c then 1 else 0, c)
  end.

(** [_checkData]: the periodic sweep, every [checkperiod] seconds.  It
    walks the properties of [this.data] and deletes the dead ones; the
    prototype is not one of them.  (After the own properties the walk meets
    the fields [t] and [v] of an entry installed as prototype: it changes
    nothing there, and on a [null] value it throws, the sweep being done by
    then.) *)
Definition _checkData (now : Z) (c : Cache) : Cache :=
  with_data c
    (filter (fun kv => fst kv = "__proto__" \/ expired now (snd kv) = false) (data c)).

End NodeCache.

(** ** Redis: the remote tier

    The server is shared and external.  [up = false] stands for a server
    whose commands fail: the promise of every command issued then rejects.
    [wire] records each command the client sends, newest first. *)

Module Redis.

Inductive Cmd : Type :=
| GET (key : string)
| DEL (key : string).

Record Server : Type := {
  store : gmap string (string * Z);
  up : bool;
  wire : list Cmd
}.

Inductive Failure : Type :=
| ConnectionLost.

Definition sent (c : Cmd) (s : Server) : Server :=
  {| store := store s; up := up s; wire := c :: wire s |}.

Definition with_store (s : Server) (m : gmap string (string * Z)) : Server :=
  {| store := m; up := up s; wire := wire s |}.

Definition live (now : Z) (e : string * Z) : bool := now <? snd e.

Definition get (key : string) (now : Z) (s : Server)
    : (Failure + option string) * Server :=
  let s := sent (GET key) s in
  if up s then
    match store s !! key with
    | Some e => if live now e then (inr (Some (fst e)), s) else (inr None, s)
    | None => (inr None, s)
    end
  else (inl ConnectionLost, s).

Definition del (key : string) (s : Server) : (Failure + Z) * Server :=
  let s := sent (DEL key) s in
  if up s then
    match store s !! key with
    | Some _ => (inr 1, with_store s (delete key (store s)))
    | None => (inr 0, s)
    end
  else (inl ConnectionLost, s).

End Redis.

(** ** The module state of cache.js *)

Record RedisClient : Type := { url : string }.

Record World : Type := {
  now : Z;                          (* Date.now() *)
  memoryCache : NodeCache.Cache;    (* const memoryCache *)
  redisClient : option RedisClient; (* let redisClient; None = null *)
  server : Redis.Server             (* the Redis server behind the client *)
}.

Definition with_memoryCache (w : World) (c : NodeCache.Cache) : World :=
  {| now := now w; memoryCache := c; redisClient := redisClient w; server := server w |}.

Definition with_redisClient (w : World) (c : option RedisClient) : World :=
  {| now := now w; memoryCache := memoryCache w; redisClient := c; server := server w |}.

Definition with_server (w : World) (s : Redis.Server) : World :=
  {| now := now w; memoryCache := memoryCache w; redisClient := redisClient w; server := s |}.

Definition with_now (w : World) (n : Z) : World :=
  {| now := n; memoryCache := memoryCache w; redisClient := redisClient w; server := server w |}.

(** Module initialisation, lines 4-22: [memoryCache] is created empty, and a
    client is created only for a truthy [process.env.REDIS_URL]. *)
Definition boot (REDIS_URL : option string) (clock : Z) (srv : Redis.Server) : World :=
  {| now := clock;
     memoryCache := NodeCache.new 300 60;
     redisClient :=
       match REDIS_URL with
       | Some u => if String.eqb u "" then None else Some {| url := u |}
       | None => None
       end;
     server := srv |}.

(** The [catch] callback of [redisClient.connect()]: [redisClient = null]. *)
Definition connect_failed (w : World) : World := with_redisClient w None.

(** ** Promises: state and rejection

    A call either returns (an [async] method: its promise is fulfilled) or
    throws (its promise is rejected); the world it has changed so far stays
    changed in both cases. *)

Inductive Error : Type :=
| RedisError (f : Redis.Failure)
| SyntaxError
| TypeError.

Inductive Outcome (A : Type) : Type :=
| Returned (a : A)
| Rejected (e : Error).
Arguments Returned {A} a.
Arguments Rejected {A} e.

Definition M (A : Type) : Type := World -> Outcome A * World.

Definition ret {A} (a : A) : M A := fun w => (Returned a, w).

Definition throw {A} (e : Error) : M A := fun w => (Rejected e, w).

Definition bind {A B} (m : M A) (f : A -> M B) : M B :=
  fun w =>
    match m w with
    | (Returned a, w') => f a w'
    | (Rejected e, w') => (Rejected e, w')
    end.

(** A promise that is started and not awaited: its effects happen, its
    outcome is dropped. *)
Definition detach {A} (m : M A) : M unit :=
  fun w => (Returned tt, snd (m w)).

Declare Scope js_scope.
Delimit Scope js_scope with js.
Notation "x <- m ;; k" := (bind m (fun x => k))
  (at level 100, m at next level, right associativity) : js_scope.
Notation "m ;;; k" := (bind m (fun _ => k))
  (at level 100, right associativity) : js_scope.
Local Open Scope js_scope.

(** The two stores, lifted. *)

Definition memoryCache_get `{JSON} (key : string) : M (option value) :=
  fun w =>
    let '(r, c) := NodeCache.get key (now w) (memoryCache w) in
    (Returned r, with_memoryCache w c).

Definition memoryCache_set (key : string) (val : value) (ttl : Z) : M unit :=
  fun w =>
    (Returned tt,
     with_memoryCache w (NodeCache.set key val (Some ttl) (now w) (memoryCache w))).

Definition memoryCache_del (key : string) : M unit :=
  fun w => (Returned tt, with_memoryCache w (snd (NodeCache.del key (memoryCache w)))).

Definition lift_reply {A} (r : (Redis.Failure + A) * Redis.Server) (w : World)
    : Outcome A * World :=
  match r with
  | (inr a, s) => (Returned a, with_server w s)
  | (inl f, s) => (Rejected (RedisError f), with_server w s)
  end.

Definition redisClient_get (key : string) : M (option string) :=
  fun w => lift_reply (Redis.get key (now w) (server w)) w.

(** [redisClient.setex(key, ttl, payload)].  The client is the one of
    redis 4 (package.json: "redis": "^4.6.7"; [connect()] is called on it),
    whose commands are named [setEx] and [SETEX]: [redisClient.setex] is
    [undefined], and the call throws a TypeError before anything is sent. *)
Definition redisClient_setex (key : string) (seconds : Z) (payload : string) : M unit :=
  throw TypeError.

Definition redisClient_del (key : string) : M Z :=
  fun w => lift_reply (Redis.del key (server w)) w.

Definition read_redisClient : M (option RedisClient) :=
  fun w => (Returned (redisClient w), w).

Definition JSON_parse_or_throw `{JSON} (s : string) : M value :=
  match JSON_parse s with
  | Some x => ret x
  | None => throw SyntaxError
  end.

(** ** class CacheService *)

Module CacheService.
Section Methods.
Context `{JSON}.

(** Lines 30-40 of [get]: the path taken once the memory cache gave
    nothing truthy. *)
Definition get_redis (key : string) : M value :=
  client <- read_redisClient ;;
  match client with
  | Some _ =>
      redisResult <- redisClient_get key ;;
      if truthy_reply redisResult then
        parsed <- JSON_parse_or_throw (default "" redisResult) ;;
        memoryCache_set key parsed 60 ;;;
        ret parsed
      else ret VNull
  | None => ret VNull
  end.

(** [static async get(key)], lines 25-41. *)
Definition get (key : string) : M value :=
  memoryResult <- memoryCache_get key ;;
  if truthy_opt memoryResult then ret (default VNull memoryResult)
  else get_redis key.

(** [static async set(key, value, ttl = 300)], lines 43-51; [ttl = None]
    is a call without the third argument. *)
Definition set (key : string) (val : value) (ttl : option Z) : M unit :=
  let ttl := default 300 ttl in
  memoryCache_set key val ttl ;;;
  client <- read_redisClient ;;
  match client with
  | Some _ => redisClient_setex key ttl (JSON_stringify val)
  | None => ret tt
  end.

(** [static delete(key)], lines 53-58: not [async], and the promise of
    [redisClient.del] is not awaited. *)
Definition delete (key : string) : M unit :=
  memoryCache_del key ;;;
  client <- read_redisClient ;;
  match client with
  | Some _ => detach (redisClient_del key)
  | None => ret tt
  end.

End Methods.
End CacheService.

(** ** cacheMiddleware

    The downstream handler reached through [next()] either answers with
    [res.status(code).json(data)] or hands an error to Express without
    touching [res.json]. *)

Record Request : Type := { originalUrl : string }.

Inductive HandlerOut : Type :=
| ResJson (code : Z) (data : value)
| NextError (err : string).

(** What the client of the route receives. *)
Inductive Sent : Type :=
| SentJson (code : Z) (body : value)
| SentError (err : string).

Record Served : Type := {
  next_called : bool;   (* whether the wrapped handler ran *)
  sent : Sent
}.

(** [`cache:${req.originalUrl}`] *)
Definition cache_key (req : Request) : string :=
  String.append "cache:" (originalUrl req).

(** What reaches the client when the handler runs against the original
    [res.json]. *)
Definition original_send (handler : HandlerOut) : Sent :=
  match handler with
  | ResJson code data => SentJson code data
  | NextError err => SentError err
  end.

Section Middleware.
Context `{JSON}.

(** The replaced [res.json]: [CacheService.set(key, data, duration)] is
    started and its promise dropped, then the original [res.json] sends. *)
Definition overridden_json (key : string) (duration : Z) (code : Z) (data : value)
    (w : World) : Sent * World :=
  (SentJson code data, snd (CacheService.set key data (Some duration) w)).

(** [next()] with [res.json] replaced. *)
Definition next_overridden (key : string) (duration : Z) (handler : HandlerOut)
    (w : World) : Sent * World :=
  match handler with
  | ResJson code data => overridden_json key duration code data w
  | NextError err => (SentError err, w)
  end.

(** [cacheMiddleware(duration = 300)(req, res, next)]; [handler] is what
    the rest of the route does for this request. *)
Definition cacheMiddleware (duration : option Z) (handler : HandlerOut)
    (req : Request) (w : World) : Served * World :=
  let duration := default 300 duration in
  let key := cache_key req in
  match CacheService.get key w with
  | (Returned cached, w1) =>
      if truthy cached then
        (* return res.json(cached) *)
        ({| next_called := false; sent := SentJson 200 cached |}, w1)
      else
        let '(out, w2) := next_overridden key duration handler w1 in
        ({| next_called := true; sent := out |}, w2)
  | (Rejected _, w1) =>
      (* catch (error) { next(); }: res.json was not replaced *)
      ({| next_called := true; sent := original_send handler |}, w1)
  end.

End Middleware.

(** ** A JSON codec to run the model

    Everything proved below holds for any [JSON] instance.  To evaluate the
    model on concrete worlds, [JSON_text] implements the built-ins on the
    integer fragment of JSON: [stringify] prints without white space, [parse]
    is a recursive-descent reader that refuses number literals with a fraction
    or an exponent and escapes beyond ASCII, and [less_than] converts what
    that fragment can express. *)

Module JSON_text.

Local Open Scope char_scope.
Local Open Scope Z_scope.

(** The double quote, U+0022. *)
Definition dquote : ascii := ascii_of_nat 34.

Definition hex_digit (n : nat) : ascii :=
  nth n ["0"; "1"; "2"; "3"; "4"; "5"; "6"; "7"; "8"; "9";
         "a"; "b"; "c"; "d"; "e"; "f"] "0".

Definition escape_char (c : ascii) : string :=
  let n := nat_of_ascii c in
  if Ascii.eqb c dquote then String "\" (String dquote EmptyString)
  else if Ascii.eqb c "\" then String "\" (String "\" EmptyString)
  else if Nat.eqb n 8 then String "\" (String "b" EmptyString)
  else if Nat.eqb n 9 then String "\" (String "t" EmptyString)
  else if Nat.eqb n 10 then String "\" (String "n" EmptyString)
  else if Nat.eqb n 12 then String "\" (String "f" EmptyString)
  else if Nat.eqb n 13 then String "\" (String "r" EmptyString)
  else if Nat.ltb n 32 then
    String "\" (String "u" (String "0" (String "0"
      (String (hex_digit (Nat.div n 16)) (String (hex_digit (Nat.modulo n 16)) EmptyString)))))
  else String c EmptyString.

Fixpoint escape (s : string) : string :=
  match s with
  | EmptyString => EmptyString
  | String c r => String.append (escape_char c) (escape r)
  end.

Definition quote (s : string) : string :=
  String dquote (String.append (escape s) (String dquote EmptyString)).

Fixpoint digits_of_pos (fuel : nat) (n : Z) (acc : string) : string :=
  match fuel with
  | O => acc
  | S fuel =>
      let acc := String (ascii_of_nat (48 + Z.to_nat (n mod 10))%nat) acc in
      if n <? 10 then acc else digits_of_pos fuel (n / 10) acc
  end.

Definition number (n : Z) : string :=
  let body := digits_of_pos (S (Z.to_nat (Z.log2 (Z.abs n)))) (Z.abs n) EmptyString in
  if n <? 0 then String "-" body else body.

Definition join (parts : list string) : string :=
  match parts with
  | [] => EmptyString
  | p :: ps => fold_left (fun acc q => String.append acc (String "," q)) ps p
  end.

Fixpoint stringify (x : value) : string :=
  match x with
  | VNull => "null"%string
  | VBool true => "true"%string
  | VBool false => "false"%string
  | VNum n => number n
  | VStr s => quote s
  | VArr items =>
      String "[" (String.append (join (map stringify items)) "]"%string)
  | VObj props =>
      String "{" (String.append
        (join (map (fun kv => String.append (quote (fst kv))
                                (String ":" (stringify (snd kv)))) props))
        "}"%string)
  end.

(** The reader. *)

Definition is_ws (c : ascii) : bool :=
  let n := nat_of_ascii c in
  Nat.eqb n 32 || Nat.eqb n 9 || Nat.eqb n 10 || Nat.eqb n 13.

Fixpoint skip_ws (s : string) : string :=
  match s with
  | String c r => if is_ws c then skip_ws r else s
  | EmptyString => s
  end.

Fixpoint strip (p s : string) : option string :=
  match p, s with
  | EmptyString, _ => Some s
  | String a p, String b s => if Ascii.eqb a b then strip p s else None
  | String _ _, EmptyString => None
  end.

Definition digit (c : ascii) : option Z :=
  let n := nat_of_ascii c in
  if Nat.leb 48 n && Nat.leb n 57 then Some (Z.of_nat n - 48) else None.

Fixpoint read_digits (acc : Z) (s : string) : Z * string :=
  match s with
  | String c r =>
      match digit c with
      | Some d => read_digits (acc * 10 + d) r
      | None => (acc, s)
      end
  | EmptyString => (acc, s)
  end.

Definition starts_fraction (s : string) : bool :=
  match s with
  | String c _ => Ascii.eqb c "." || Ascii.eqb c "e" || Ascii.eqb c "E"
  | EmptyString => false
  end.

Definition read_natural (s : string) : option (Z * string) :=
  match s with
  | String c r =>
      match digit c with
      | Some d =>
          let '(n, rest) := if d =? 0 then (0, r) else read_digits d r in
          if starts_fraction rest then None
          else match rest with
               | String c' _ =>
                   if (d =? 0) && bool_decide (is_Some (digit c')) then None
                   else Some (n, rest)
               | EmptyString => Some (n, rest)
               end
      | None => None
      end
  | EmptyString => None
  end.

Definition read_number (s : string) : option (Z * string) :=
  match s with
  | String "-" r =>
      match read_natural r with
      | Some (n, rest) => Some (- n, rest)
      | None => None
      end
  | _ => read_natural s
  end.

Definition hex_value (c : ascii) : option nat :=
  let n := nat_of_ascii c in
  if Nat.leb 48 n && Nat.leb n 57 then Some (n - 48)%nat
  else if Nat.leb 97 n && Nat.leb n 102 then Some (n - 87)%nat
  else if Nat.leb 65 n && Nat.leb n 70 then Some (n - 55)%nat
  else None.

Definition read_unicode (s : string) : option (ascii * string) :=
  match s with
  | String a (String b (String c (String d r))) =>
      match hex_value a, hex_value b, hex_value c, hex_value d with
      | Some 0%nat, Some 0%nat, Some h, Some l =>
          if Nat.ltb h 8 then Some (ascii_of_nat (16 * h + l), r) else None
      | _, _, _, _ => None
      end
  | _ => None
  end.

Definition read_escape (s : string) : option (ascii * string) :=
  match s with
  | String c r =>
      if Ascii.eqb c dquote || Ascii.eqb c "\" || Ascii.eqb c "/" then Some (c, r)
      else if Ascii.eqb c "b" then Some (ascii_of_nat 8, r)
      else if Ascii.eqb c "t" then Some (ascii_of_nat 9, r)
      else if Ascii.eqb c "n" then Some (ascii_of_nat 10, r)
      else if Ascii.eqb c "f" then Some (ascii_of_nat 12, r)
      else if Ascii.eqb c "r" then Some (ascii_of_nat 13, r)
      else if Ascii.eqb c "u" then read_unicode r
      else None
  | EmptyString => None
  end.

(** The characters after an opening quote, up to the closing one. *)
Fixpoint read_chars (fuel : nat) (s : string) : option (string * string) :=
  match fuel with
  | O => None
  | S fuel =>
      match s with
      | String c r =>
          if Ascii.eqb c dquote then Some (EmptyString, r)
          else if Ascii.eqb c "\" then
            match read_escape r with
            | Some (c', r') =>
                match read_chars fuel r' with
                | Some (body, rest) => Some (String c' body, rest)
                | None => None
                end
            | None => None
            end
          else if Nat.ltb (nat_of_ascii c) 32 then None
          else
            match read_chars fuel r with
            | Some (body, rest) => Some (String c body, rest)
            | None => None
            end
      | EmptyString => None
      end
  end.

Definition read_string (s : string) : option (string * string) :=
  match s with
  | String c r => if Ascii.eqb c dquote then read_chars (String.length r) r else None
  | EmptyString => None
  end.

(** [item (, item)* close], the opening bracket and a first look for an
    empty sequence being done by the caller. *)
Fixpoint read_seq {A} (item : string -> option (A * string)) (close : ascii)
    (fuel : nat) (s : string) : option (list A * string) :=
  match fuel with
  | O => None
  | S fuel =>
      match item s with
      | Some (a, rest) =>
          match skip_ws rest with
          | String c r =>
              if Ascii.eqb c close then Some ([a], r)
              else if Ascii.eqb c "," then
                match read_seq item close fuel r with
                | Some (more, rest') => Some (a :: more, rest')
                | None => None
                end
              else None
          | EmptyString => None
          end
      | None => None
      end
  end.

Definition read_member (item : string -> option (value * string)) (s : string)
    : option ((string * value) * string) :=
  match read_string (skip_ws s) with
  | Some (key, rest) =>
      match skip_ws rest with
      | String c r =>
          if Ascii.eqb c ":" then
            match item r with
            | Some (x, rest') => Some ((key, x), rest')
            | None => None
            end
          else None
      | EmptyString => None
      end
  | None => None
  end.

Definition read_bracketed {A} (item : string -> option (A * string)) (close : ascii)
    (s : string) : option (list A * string) :=
  match skip_ws s with
  | String c r =>
      if Ascii.eqb c close then Some ([], r)
      else read_seq item close (String.length s) s
  | EmptyString => None
  end.

Fixpoint read_value (fuel : nat) (s : string) : option (value * string) :=
  match fuel with
  | O => None
  | S fuel =>
      let s := skip_ws s in
      match s with
      | String c r =>
          if Ascii.eqb c "[" then
            match read_bracketed (read_value fuel) "]" r with
            | Some (items, rest) => Some (VArr items, rest)
            | None => None
            end
          else if Ascii.eqb c "{" then
            match read_bracketed (read_member (read_value fuel)) "}" r with
            | Some (props, rest) => Some (VObj props, rest)
            | None => None
            end
          else if Ascii.eqb c dquote then
            match read_string s with
            | Some (str, rest) => Some (VStr str, rest)
            | None => None
            end
          else
            match strip "null" s, strip "true" s, strip "false" s with
            | Some rest, _, _ => Some (VNull, rest)
            | _, Some rest, _ => Some (VBool true, rest)
            | _, _, Some rest => Some (VBool false, rest)
            | None, None, None =>
                match read_number s with
                | Some (n, rest) => Some (VNum n, rest)
                | None => None
                end
            end
      | EmptyString => None
      end
  end.

Definition parse (s : string) : option value :=
  match read_value (S (String.length s)) s with
  | Some (x, rest) =>
      match skip_ws rest with
      | EmptyString => Some x
      | String _ _ => None
      end
  | None => None
  end.

(** [x < n]: the number [x] converts to, compared with [n].  Of strings only
    plain decimal integers (and the empty string, which counts as 0) are
    read; an array converts as the string that joins it, read here for the
    empty and the one-number array; an object converts to no number. *)
Definition to_number (x : value) : option Z :=
  match x with
  | VNull => Some 0
  | VBool b => Some (if b then 1 else 0)
  | VNum n => Some n
  | VStr s =>
      match skip_ws s with
      | EmptyString => Some 0
      | t =>
          match read_number t with
          | Some (n, rest) =>
              match skip_ws rest with
              | EmptyString => Some n
              | String _ _ => None
              end
          | None => None
          end
      end
  | VArr [] => Some 0
  | VArr [VNum n] => Some n
  | VArr _ => None
  | VObj _ => None
  end.

Definition less_than (x : value) (n : Z) : bool :=
  match to_number x with
  | Some m => m <? n
  | None => false
  end.

End JSON_text.

#[export] Instance JSON_text_codec : JSON :=
  {| JSON_stringify := JSON_text.stringify;
     JSON_parse := JSON_text.parse;
     JS_less_than := JSON_text.less_than |}.

(** ** Sequences of calls *)

(** What a collaborator can ask of the cache, and time passing in between. *)
Inductive Op : Type :=
| Get (key : string)
| Set_ (key : string) (val : value) (ttl : option Z)
| Delete (key : string)
| Wait (ms : Z).

Inductive Answer : Type :=
| Value (x : value)
| Done.

Definition returned {A} (o : Outcome A) : bool :=
  match o with
  | Returned _ => true
  | Rejected _ => false
  end.

Section Runs_def.
Context `{JSON}.

Definition perform (op : Op) : M Answer :=
  match op with
  | Get key => x <- CacheService.get key ;; ret (Value x)
  | Set_ key val ttl => CacheService.set key val ttl ;;; ret Done
  | Delete key => CacheService.delete key ;;; ret Done
  | Wait ms => fun w => (Returned Done, with_now w (now w + ms))
  end.

Fixpoint run (ops : list Op) (w : World) : list (Outcome Answer) * World :=
  match ops with
  | [] => ([], w)
  | op :: rest =>
      let '(o, w1) := perform op w in
      let '(os, w2) := run rest w1 in
      (o :: os, w2)
  end.

(** The local tier on its own: what the three operations are when there is
    only [memoryCache].  [Get] answers what [memoryCache.get] gives when that
    is truthy and [null] otherwise, [Set] is [memoryCache.set] with the ttl
    (300 when none is given), [Delete] is [memoryCache.del]. *)
Definition local_only_step (op : Op) (w : World) : Outcome Answer * World :=
  match op with
  | Get key =>
      let '(r, c) := NodeCache.get key (now w) (memoryCache w) in
      (Returned (Value (match r with
                        | Some x => if truthy x then x else VNull
                        | None => VNull
                        end)),
       with_memoryCache w c)
  | Set_ key val ttl =>
      (Returned Done,
       with_memoryCache w
         (NodeCache.set key val (Some (default 300 ttl)) (now w) (memoryCache w)))
  | Delete key =>
      (Returned Done, with_memoryCache w (snd (NodeCache.del key (memoryCache w))))
  | Wait ms => (Returned Done, with_now w (now w + ms))
  end.

Fixpoint local_only_run (ops : list Op) (w : World) : list (Outcome Answer) * World :=
  match ops with
  | [] => ([], w)
  | op :: rest =>
      let '(o, w1) := local_only_step op w in
      let '(os, w2) := local_only_run rest w1 in
      (o :: os, w2)
  end.

End Runs_def.

(** A lookup that gave nothing truthy, or threw: the handler runs. *)
Definition missed (o : Outcome value) : bool :=
  match o with
  | Returned x => negb (truthy x)
  | Rejected _ => true
  end.

(** ** Sample worlds *)

Definition quiet_server : Redis.Server :=
  {| Redis.store := ∅; Redis.up := true; Redis.wire := [] |}.

Definition dead_server : Redis.Server :=
  {| Redis.store := ∅; Redis.up := false; Redis.wire := [] |}.

(** No REDIS_URL: the local-only mode. *)
Definition local_only : World := boot None 1000 quiet_server.

(** REDIS_URL set and the server answering. *)
Definition two_tier : World := boot (Some "redis://cache:6379") 1000 quiet_server.

(** REDIS_URL set, the client object in place, the server failing every
    command. *)
Definition remote_down : World := boot (Some "redis://cache:6379") 1000 dead_server.

Definition ada : value := VObj [("name", VStr "Ada")].

(** A server that answers and holds [payload] under "k" until [expiry]. *)
Definition remote_holds (payload : string) (expiry : Z) : World :=
  with_server two_tier
    {| Redis.store := {[ "k" := (payload, expiry) ]}; Redis.up := true; Redis.wire := [] |}.

(** ** What a lookup can see

    The answer of [CacheService.get] for a key is decided by two
    observations of the world: what [memoryCache.get] gives for the key, and
    what the remote tier would say. *)

Definition local_view `{JSON} (key : string) (w : World) : option value :=
  fst (NodeCache.get key (now w) (memoryCache w)).

Inductive Remote : Type :=
| Disabled                  (* redisClient is null *)
| Failing                   (* the command rejects *)
| Absent                    (* null, or an empty payload *)
| Payload (s : string).

Definition remote_view (key : string) (w : World) : Remote :=
  match redisClient w with
  | None => Disabled
  | Some _ =>
      if Redis.up (server w) then
        match Redis.store (server w) !! key with
        | Some e =>
            if Redis.live (now w) e && negb (String.eqb (fst e) "")
            then Payload (fst e) else Absent
        | None => Absent
        end
      else Failing
  end.

Definition answer_of `{JSON} (r : Remote) : Outcome value :=
  match r with
  | Disabled => Returned VNull
  | Absent => Returned VNull
  | Failing => Rejected (RedisError Redis.ConnectionLost)
  | Payload s =>
      match JSON_parse s with
      | Some x => Returned x
      | None => Rejected SyntaxError
      end
  end.

(** ** The environment *)

(** The [checkperiod] timer of [memoryCache] fires. *)
Definition sweep (w : World) : World :=
  with_memoryCache w (NodeCache._checkData (now w) (memoryCache w)).

(** ** class OptimizedDashboard

    The browser-side class of PERFORMANCE_OPTIMIZATION.md
    (public/dashboard-optimized.js): its request cache, its debounce timers
    and the index window of its virtual list. *)

Module OptimizedDashboard.

(** An entry of [this.cache]: [{ data, timestamp }]. *)
Record Cached : Type := { data : value; timestamp : Z }.

(** [this.cache], with the clock of the page ([Date.now()]) and the urls
    asked of axios so far, newest first. *)
Record Dashboard : Type := {
  cache : gmap string Cached;
  clock : Z;
  requested : list string
}.

(** What the network does with one [axios.get]: the milliseconds it takes
    and the [response.data] it brings, [None] when the promise rejects. *)
Record Network : Type := { latency : Z; response : option value }.

Section Requests.
Context `{JSON}.

(** [`${url}:${JSON.stringify(options)}`] *)
Definition cacheKey (url : string) (options : value) : string :=
  String.append url (String.append ":" (JSON_stringify options)).

(** [cached && Date.now() - cached.timestamp < 60000] *)
Definition fresh (cached : option Cached) (time : Z) : bool :=
  match cached with
  | Some c => time - timestamp c <? 60000
  | None => false
  end.

(** [async cachedRequest(url, options = {})]; [options = None] is a call
    without the second argument. *)
Definition cachedRequest (url : string) (options : option value) (net : Network)
    (d : Dashboard) : value * Dashboard :=
  let options := default (VObj []) options in
  let cacheKey := cacheKey url options in
  let cached := cache d !! cacheKey in
  if fresh cached (clock d) then (default VNull (data <$> cached), d)
  else
    let arrived := clock d + latency net in
    match response net with
    | Some body =>
        (body,
         {| cache := <[cacheKey := {| data := body; timestamp := arrived |}]> (cache d);
            clock := arrived;
            requested := url :: requested d |})
    | None =>
        (* catch (error): return cached ? cached.data : null *)
        (default VNull (data <$> cached),
         {| cache := cache d; clock := arrived; requested := url :: requested d |})
    end.

(** Time passes on the page. *)
Definition wait (ms : Z) (d : Dashboard) : Dashboard :=
  {| cache := cache d; clock := clock d + ms; requested := requested d |}.

(** The same request made again and again, each time after a wait and
    against what the network then does. *)
Fixpoint poll (url : string) (options : option value) (rounds : list (Z * Network))
    (d : Dashboard) : list value * Dashboard :=
  match rounds with
  | [] => ([], d)
  | (ms, net) :: rest =>
      let '(x, d1) := cachedRequest url options net (wait ms d) in
      let '(xs, d2) := poll url options rest d1 in
      (x :: xs, d2)
  end.

End Requests.

(** *** The virtual list

    Pixel lengths are integers.  The quotients are those of an item height
    other than 0, which [render] treats apart. *)

(** [Math.ceil(a / b)] *)
Definition ceil_div (a b : Z) : Z := - ((- a) / b).

(** [Math.ceil(containerHeight / itemHeight) + 2] *)
Definition visibleItems (containerHeight itemHeight : Z) : Z :=
  ceil_div containerHeight itemHeight + 2.

(** [Math.floor(scrollTop / itemHeight)] *)
Definition startIndex (scrollTop itemHeight : Z) : Z := scrollTop / itemHeight.

(** [Math.min(startIndex + visibleItems, items.length)] *)
Definition endIndex (scrollTop containerHeight itemHeight count : Z) : Z :=
  Z.min (startIndex scrollTop itemHeight + visibleItems containerHeight itemHeight) count.

(** One absolutely positioned [div] of the list. *)
Record Row (A : Type) : Type := { index : Z; top : Z; height : Z; item : option A }.
Arguments index {A} _.
Arguments top {A} _.
Arguments height {A} _.
Arguments item {A} _.

(** The closure [render] of [renderVirtualList(container, items, itemHeight = 50)]:
    the rows appended for [i] from [startIndex] up to [endIndex].  With an
    item height of 0 the two indices are infinite or NaN and the loop does
    not run; [items[i]] is [undefined] for a negative [i]. *)
Definition render {A} (items : list A) (containerHeight : Z) (itemHeight : option Z)
    (scrollTop : Z) : list (Row A) :=
  let itemHeight := default 50 itemHeight in
  if itemHeight =? 0 then []
  else
    let first := startIndex scrollTop itemHeight in
    let last := endIndex scrollTop containerHeight itemHeight (Z.of_nat (length items)) in
    map (fun i => {| index := i; top := i * itemHeight; height := itemHeight;
                     item := if i <? 0 then None else items !! Z.to_nat i |})
        (seqZ first (last - first)).

(** *** Debounce timers

    [setTimeout] hands out fresh timer ids; the page keeps its active timers
    as id -> (due time, callback), the due time being the earliest moment the
    callback may run. [F] is the type of callbacks. *)

Section Debounce.
Context {F : Type}.

Record Page : Type := {
  debounceTimers : gmap string nat;   (* this.debounceTimers *)
  timers : gmap nat (Z * F);          (* the active timers of the page *)
  next_timer : nat;
  time : Z
}.

(** The constructor: [this.debounceTimers = new Map()]. *)
Definition new_page (t : Z) : Page :=
  {| debounceTimers := ∅; timers := ∅; next_timer := 1; time := t |}.

(** [clearTimeout(id)]: nothing happens for an id that is not active. *)
Definition clearTimeout (id : nat) (p : Page) : Page :=
  {| debounceTimers := debounceTimers p; timers := delete id (timers p);
     next_timer := next_timer p; time := time p |}.

(** The delay as the page takes it: converted to a signed 32-bit integer,
    and 0 when that is negative. *)
Definition timeout_of (delay : Z) : Z :=
  Z.max 0 ((delay + 2147483648) mod 4294967296 - 2147483648).

(** [setTimeout(func, delay)] *)
Definition setTimeout (func : F) (delay : Z) (p : Page) : nat * Page :=
  (next_timer p,
   {| debounceTimers := debounceTimers p;
      timers := <[next_timer p := (time p + timeout_of delay, func)]> (timers p);
      next_timer := S (next_timer p); time := time p |}).

(** [debounce(key, func, delay = 300)] *)
Definition debounce (key : string) (func : F) (delay : option Z) (p : Page) : Page :=
  let delay := default 300 delay in
  let p1 :=
    match debounceTimers p !! key with
    | Some id => clearTimeout id p
    | None => p
    end in
  let '(timer, p2) := setTimeout func delay p1 in
  {| debounceTimers := <[key := timer]> (debounceTimers p2); timers := timers p2;
     next_timer := next_timer p2; time := time p2 |}.

(** The page runs a due timer: its callback is called and the timer is no
    longer active. *)
Definition fire (id : nat) (p : Page) : option F * Page :=
  match timers p !! id with
  | Some (due, func) =>
      if due <=? time p then (Some func, clearTimeout id p) else (None, p)
  | None => (None, p)
  end.

Definition elapse (ms : Z) (p : Page) : Page :=
  {| debounceTimers := debounceTimers p; timers := timers p;
     next_timer := next_timer p; time := time p + ms |}.

(** What can happen to the page. *)
Inductive Event : Type :=
| Debounce (key : string) (func : F) (delay : option Z)
| Fire (id : nat)
| Elapse (ms : Z).

Definition step (e : Event) (p : Page) : Page :=
  match e with
  | Debounce key func delay => debounce key func delay p
  | Fire id => snd (fire id p)
  | Elapse ms => elapse ms p
  end.

Definition play (events : list Event) (p : Page) : Page :=
  fold_left (fun p e => step e p) events p.

(** The state the timers are kept in: timer ids in use are below the next
    one, an active timer is the one registered for some key, and no two keys
    share a timer. *)
Record tidy (p : Page) : Prop := {
  registered_below :
    forall key id, debounceTimers p !! key = Some id -> (id < next_timer p)%nat;
  active_below :
    forall id e, timers p !! id = Some e -> (id < next_timer p)%nat;
  active_registered :
    forall id e, timers p !! id = Some e -> exists key, debounceTimers p !! key = Some id;
  registered_once :
    forall k1 k2 id, debounceTimers p !! k1 = Some id ->
                     debounceTimers p !! k2 = Some id -> k1 = k2
}.

End Debounce.
Arguments Page : clear implicits.
Arguments Event : clear implicits.

End OptimizedDashboard.



(** * Properties *)

(** ** The local tier *)

Section Store.
Context `{JSON}.

Lemma NodeCache_get_set (key : string) (val : value) (ttl now : Z) (c : NodeCache.Cache) :
  0 <= ttl ->
  NodeCache.get key now (NodeCache.set key val (Some ttl) now c)
  = (Some val, NodeCache.set key val (Some ttl) now c).
Proof.
  intros Httl. unfold NodeCache.get, NodeCache.set. simpl.
  rewrite lookup_insert_eq. unfold NodeCache.expired, NodeCache._wrap. simpl.
  destruct (ttl =? 0) eqn:E; simpl; [reflexivity|].
  replace (now + ttl * 1000 <? now) with false by (symmetry; apply Z.ltb_ge; lia).
  rewrite andb_false_r. reflexivity.
Qed.


Lemma expired_fresh (now ttl : Z) (x : value) :
  0 < ttl ->
  NodeCache.expired now {| NodeCache.t := now + ttl * 1000; NodeCache.v := x |} = false.
Proof.
  intros Httl. unfold NodeCache.expired. simpl.
  replace (now + ttl * 1000 <? now) with false by (symmetry; apply Z.ltb_ge; lia).
  apply andb_false_r.
Qed.

(** [delete] leaves what is stored under "__proto__" and every other name. *)
Lemma remove_data (key other : string) (c : NodeCache.Cache) :
  key <> other \/ other = "__proto__" ->
  NodeCache.data (NodeCache.remove key c) !! other = NodeCache.data c !! other.
Proof.
  intros Hne. unfold NodeCache.remove.
  destruct (String.eqb key "__proto__") eqn:Hk; [reflexivity|].
  apply String.eqb_neq in Hk. simpl. apply lookup_delete_ne.
  destruct Hne as [Hne | ->]; assumption.
Qed.

Lemma remove_data_eq (key : string) (c : NodeCache.Cache) :
  key <> "__proto__" ->
  NodeCache.data (NodeCache.remove key c) !! key = None.
Proof.
  intros Hne. unfold NodeCache.remove.
  apply String.eqb_neq in Hne. rewrite Hne. simpl. apply lookup_delete_eq.
Qed.

(** What a name inherits depends on the store only through what is under
    "__proto__". *)
Lemma inherited_by_proto (key : string) (now : Z) (c1 c2 : NodeCache.Cache) :
  NodeCache.data c1 !! "__proto__" = NodeCache.data c2 !! "__proto__" ->
  NodeCache.inherited key now c1 = NodeCache.inherited key now c2.
Proof.
  intros Heq. unfold NodeCache.inherited. rewrite Heq. reflexivity.
Qed.

Lemma inherited_remove (key other : string) (now : Z) (c : NodeCache.Cache) :
  NodeCache.inherited other now (NodeCache.remove key c) = NodeCache.inherited other now c.
Proof.
  apply inherited_by_proto. apply remove_data. right. reflexivity.
Qed.

(** Only under the name "v" can something truthy be inherited. *)
Lemma inherited_falsy (key : string) (now : Z) (c : NodeCache.Cache) :
  key <> "v" \/ NodeCache.data c !! "__proto__" = None ->
  truthy_opt (NodeCache.inherited key now c) = false.
Proof.
  intros Hk. unfold NodeCache.inherited.
  destruct (String.eqb key "__proto__" || existsb (String.eqb key) NodeCache.Object_prototype_names);
    [reflexivity|].
  destruct (NodeCache.data c !! "__proto__") as [proto|] eqn:Hp; [|reflexivity].
  destruct (String.eqb key "t"); [reflexivity|].
  destruct (String.eqb key "v") eqn:Hv; [|reflexivity].
  apply String.eqb_eq in Hv. destruct Hk as [Hk|Hk]; [contradiction | discriminate].
Qed.

Lemma NodeCache_get_data (key other : string) (now : Z) (c : NodeCache.Cache) :
  key <> other \/ other = "__proto__" ->
  NodeCache.data (snd (NodeCache.get key now c)) !! other = NodeCache.data c !! other.
Proof.
  intros Hne. unfold NodeCache.get.
  destruct (NodeCache.data c !! key) as [e|]; [|reflexivity].
  destruct (NodeCache.expired now e); [|reflexivity].
  simpl. apply remove_data. exact Hne.
Qed.

Lemma NodeCache_get_lookup (key : string) (now : Z) (c : NodeCache.Cache) :
  fst (NodeCache.get key now c)
  = match NodeCache.data c !! key with
    | Some e => if NodeCache.expired now e then None else Some (NodeCache.v e)
    | None => NodeCache.inherited key now c
    end.
Proof.
  unfold NodeCache.get.
  destruct (NodeCache.data c !! key) as [e|]; [|reflexivity].
  destruct (NodeCache.expired now e); reflexivity.
Qed.

(** A second [get] gives nothing truthy where the first gave nothing truthy,
    as long as nothing truthy can be inherited under the name. *)
Lemma NodeCache_get_again (key : string) (now : Z) (c : NodeCache.Cache) :
  key <> "v" \/ NodeCache.data c !! "__proto__" = None ->
  truthy_opt (fst (NodeCache.get key now c)) = false ->
  truthy_opt (fst (NodeCache.get key now (snd (NodeCache.get key now c)))) = false.
Proof.
  intros Hk. unfold NodeCache.get.
  destruct (NodeCache.data c !! key) as [e|] eqn:He; simpl.
  - destruct (NodeCache.expired now e) eqn:Hexp; simpl.
    + intros _. unfold NodeCache.remove.
      destruct (String.eqb key "__proto__") eqn:Hp.
      * rewrite He, Hexp. reflexivity.
      * simpl. rewrite lookup_delete_eq. simpl.
        apply inherited_falsy. destruct Hk as [Hk|Hk]; [left; exact Hk|right].
        simpl. rewrite lookup_delete_ne; [exact Hk|].
        apply String.eqb_neq in Hp. exact Hp.
    + rewrite He, Hexp. simpl. auto.
  - rewrite He. simpl. auto.
Qed.

(** A truthy answer of [get] is repeated by the next one. *)
Lemma NodeCache_get_hit_again (key : string) (now : Z) (c : NodeCache.Cache) (x : value) :
  fst (NodeCache.get key now c) = Some x ->
  NodeCache.get key now (snd (NodeCache.get key now c)) = (Some x, snd (NodeCache.get key now c)).
Proof.
  unfold NodeCache.get.
  destruct (NodeCache.data c !! key) as [e|] eqn:He; simpl.
  - destruct (NodeCache.expired now e) eqn:Hexp; simpl; [discriminate|].
    intros Hx. rewrite He, Hexp, <- Hx. reflexivity.
  - intros Hx. rewrite He, Hx. reflexivity.
Qed.


End Store.


(** ** The three methods, step by step *)

Section Laws.
Context `{JSON}.

(** [set]: the local write, and then either nothing more (no client) or the
    call of a method the client does not have. *)
Lemma set_unfold (key : string) (val : value) (ttl : option Z) (w : World) :
  CacheService.set key val ttl w
  = (match redisClient w with
     | Some _ => Rejected TypeError
     | None => Returned tt
     end,
     with_memoryCache w
       (NodeCache.set key val (Some (default 300 ttl)) (now w) (memoryCache w))).
Proof.
  unfold CacheService.set, bind, memoryCache_set, read_redisClient, redisClient_setex,
    throw, ret. simpl.
  destruct (redisClient w); reflexivity.
Qed.

Lemma set_memoryCache (key : string) (val : value) (ttl : option Z) (w : World) :
  memoryCache (snd (CacheService.set key val ttl w))
  = NodeCache.set key val (Some (default 300 ttl)) (now w) (memoryCache w).
Proof. rewrite set_unfold. reflexivity. Qed.

Lemma set_now (key : string) (val : value) (ttl : option Z) (w : World) :
  now (snd (CacheService.set key val ttl w)) = now w.
Proof. rewrite set_unfold. reflexivity. Qed.

(** What [set] leaves of the remote tier: all of it. *)
Lemma set_observed (key : string) (val : value) (ttl : option Z) (w : World) :
  redisClient (snd (CacheService.set key val ttl w)) = redisClient w
  /\ server (snd (CacheService.set key val ttl w)) = server w.
Proof. rewrite set_unfold. split; reflexivity. Qed.

(** [delete]: the local removal, and the command when there is a client. *)
Lemma delete_unfold (key : string) (w : World) :
  CacheService.delete key w
  = (Returned tt,
     let w1 := with_memoryCache w (snd (NodeCache.del key (memoryCache w))) in
     match redisClient w with
     | Some _ => with_server w1 (snd (Redis.del key (server w)))
     | None => w1
     end).
Proof.
  unfold CacheService.delete, bind, memoryCache_del, read_redisClient, detach, ret. simpl.
  destruct (redisClient w); [|reflexivity].
  unfold redisClient_del, lift_reply. simpl.
  destruct (Redis.del key (server w)) as [[f|n] s]; reflexivity.
Qed.

Lemma delete_returns (key : string) (w : World) :
  fst (CacheService.delete key w) = Returned tt.
Proof. rewrite delete_unfold. reflexivity. Qed.

Lemma delete_memoryCache (key : string) (w : World) :
  memoryCache (snd (CacheService.delete key w)) = snd (NodeCache.del key (memoryCache w)).
Proof. rewrite delete_unfold. simpl. destruct (redisClient w); reflexivity. Qed.

Lemma Redis_del_frame (key : string) (s : Redis.Server) :
  Redis.up (snd (Redis.del key s)) = Redis.up s
  /\ Redis.wire (snd (Redis.del key s)) = Redis.DEL key :: Redis.wire s
  /\ Redis.store (snd (Redis.del key s))
     = (if Redis.up s then delete key (Redis.store s) else Redis.store s).
Proof.
  unfold Redis.del. simpl. destruct (Redis.up s) eqn:Hup; simpl; [|auto].
  destruct (Redis.store s !! key) eqn:Hk; simpl; rewrite ?Hup; repeat split; auto.
  symmetry. apply delete_id. exact Hk.
Qed.

Lemma delete_observed (key : string) (w : World) :
  redisClient (snd (CacheService.delete key w)) = redisClient w
  /\ Redis.up (server (snd (CacheService.delete key w))) = Redis.up (server w)
  /\ now (snd (CacheService.delete key w)) = now w
  /\ forall other, key <> other ->
       Redis.store (server (snd (CacheService.delete key w))) !! other
       = Redis.store (server w) !! other.
Proof.
  rewrite delete_unfold. simpl.
  destruct (Redis_del_frame key (server w)) as (Hup & _ & Hst).
  destruct (redisClient w) eqn:Hc; simpl; rewrite ?Hc; repeat split; auto.
  intros other Hne. rewrite Hst. destruct (Redis.up (server w)); [|reflexivity].
  apply lookup_delete_ne. exact Hne.
Qed.

(** A truthy value in the memory cache is what [get] answers; Redis is not
    asked. *)
Lemma get_memory_hit (key : string) (x : value) (w : World) :
  NodeCache.get key (now w) (memoryCache w) = (Some x, memoryCache w) ->
  truthy x = true ->
  CacheService.get key w = (Returned x, w).
Proof.
  intros Hget Ht. unfold CacheService.get, bind, memoryCache_get.
  rewrite Hget. simpl. rewrite Ht. unfold ret. simpl.
  destruct w; reflexivity.
Qed.

(** ** Lookups through the two views *)

Lemma local_view_lookup (key : string) (w : World) :
  local_view key w
  = match NodeCache.data (memoryCache w) !! key with
    | Some e => if NodeCache.expired (now w) e then None else Some (NodeCache.v e)
    | None => NodeCache.inherited key (now w) (memoryCache w)
    end.
Proof. apply NodeCache_get_lookup. Qed.

(** The answer of [get], read off the two views. *)
Lemma get_answer (key : string) (w : World) :
  fst (CacheService.get key w)
  = if truthy_opt (local_view key w)
    then Returned (default VNull (local_view key w))
    else answer_of (remote_view key w).
Proof.
  unfold CacheService.get, bind, memoryCache_get, local_view, remote_view.
  destruct (NodeCache.get key (now w) (memoryCache w)) as [lv c1]. simpl.
  destruct (truthy_opt lv); [reflexivity|].
  unfold CacheService.get_redis, bind, read_redisClient. simpl.
  destruct (redisClient w); [|reflexivity].
  unfold redisClient_get, lift_reply, Redis.get. simpl.
  destruct (Redis.up (server w)); [|reflexivity].
  destruct (Redis.store (server w) !! key) as [[s ex]|]; [|reflexivity].
  simpl. destruct (Redis.live (now w) (s, ex)); [|reflexivity]. simpl.
  destruct (negb (String.eqb s "")); [|reflexivity]. simpl.
  unfold JSON_parse_or_throw, bind. destruct (JSON_parse s); reflexivity.
Qed.

(** What the memory cache holds after a [get], under any key. *)
Lemma get_memoryCache (key : string) (w : World) :
  memoryCache (snd (CacheService.get key w))
  = let c1 := snd (NodeCache.get key (now w) (memoryCache w)) in
    if truthy_opt (local_view key w) then c1
    else match remote_view key w with
         | Payload s =>
             match JSON_parse s with
             | Some x => NodeCache.set key x (Some 60) (now w) c1
             | None => c1
             end
         | _ => c1
         end.
Proof.
  unfold CacheService.get, bind, memoryCache_get, local_view, remote_view.
  destruct (NodeCache.get key (now w) (memoryCache w)) as [lv c1]. simpl.
  destruct (truthy_opt lv); [reflexivity|].
  unfold CacheService.get_redis, bind, read_redisClient. simpl.
  destruct (redisClient w); [|reflexivity].
  unfold redisClient_get, lift_reply, Redis.get. simpl.
  destruct (Redis.up (server w)); [|reflexivity].
  destruct (Redis.store (server w) !! key) as [[s ex]|]; [|reflexivity].
  simpl. destruct (Redis.live (now w) (s, ex)); [|reflexivity]. simpl.
  destruct (negb (String.eqb s "")); [|reflexivity]. simpl.
  unfold JSON_parse_or_throw, bind. destruct (JSON_parse s); reflexivity.
Qed.

(** A lookup changes neither the clock nor the client nor what the server
    stores. *)
Lemma get_frame (key : string) (w : World) :
  now (snd (CacheService.get key w)) = now w
  /\ redisClient (snd (CacheService.get key w)) = redisClient w
  /\ Redis.store (server (snd (CacheService.get key w))) = Redis.store (server w)
  /\ Redis.up (server (snd (CacheService.get key w))) = Redis.up (server w).
Proof.
  unfold CacheService.get, bind, memoryCache_get.
  destruct (NodeCache.get key (now w) (memoryCache w)) as [lv c1]. simpl.
  destruct (truthy_opt lv); [simpl; auto|].
  unfold CacheService.get_redis, bind, read_redisClient. simpl.
  destruct (redisClient w) eqn:Hc; [|simpl; auto].
  unfold redisClient_get, lift_reply, Redis.get. simpl.
  destruct (Redis.up (server w)) eqn:Hup; [|simpl; auto].
  destruct (Redis.store (server w) !! key) as [[s ex]|]; [|simpl; auto].
  simpl. destruct (Redis.live (now w) (s, ex)); [|simpl; auto]. simpl.
  destruct (negb (String.eqb s "")); [|simpl; auto]. simpl.
  unfold JSON_parse_or_throw, bind. destruct (JSON_parse s); simpl; auto.
Qed.

(** Which command a [get] puts on the wire. *)
Lemma get_wire (key : string) (w : World) :
  Redis.wire (server (snd (CacheService.get key w)))
  = if truthy_opt (local_view key w) then Redis.wire (server w)
    else match redisClient w with
         | Some _ => Redis.GET key :: Redis.wire (server w)
         | None => Redis.wire (server w)
         end.
Proof.
  unfold CacheService.get, bind, memoryCache_get, local_view.
  destruct (NodeCache.get key (now w) (memoryCache w)) as [lv c1]. simpl.
  destruct (truthy_opt lv); [reflexivity|].
  unfold CacheService.get_redis, bind, read_redisClient. simpl.
  destruct (redisClient w); [|reflexivity].
  unfold redisClient_get, lift_reply, Redis.get. simpl.
  destruct (Redis.up (server w)); [|reflexivity].
  destruct (Redis.store (server w) !! key) as [[s ex]|]; [|reflexivity].
  simpl. destruct (Redis.live (now w) (s, ex)); [|reflexivity]. simpl.
  destruct (negb (String.eqb s "")); [|reflexivity]. simpl.
  unfold JSON_parse_or_throw, bind. destruct (JSON_parse s); reflexivity.
Qed.

(** Without a client a lookup touches nothing but the memory cache. *)
Lemma get_disabled (key : string) (w : World) :
  redisClient w = None ->
  CacheService.get key w
  = (Returned (match fst (NodeCache.get key (now w) (memoryCache w)) with
               | Some x => if truthy x then x else VNull
               | None => VNull
               end),
     with_memoryCache w (snd (NodeCache.get key (now w) (memoryCache w)))).
Proof.
  intros Hc. unfold CacheService.get, bind, memoryCache_get.
  destruct (NodeCache.get key (now w) (memoryCache w)) as [lv c1]. simpl.
  destruct lv as [x|]; simpl.
  - destruct (truthy x); [reflexivity|].
    unfold CacheService.get_redis, bind, read_redisClient. simpl. rewrite Hc. reflexivity.
  - unfold CacheService.get_redis, bind, read_redisClient. simpl. rewrite Hc. reflexivity.
Qed.

(** The remote view of any key is the same after a [get]. *)
Lemma get_remote_view (key other : string) (w : World) :
  remote_view other (snd (CacheService.get key w)) = remote_view other w.
Proof.
  destruct (get_frame key w) as (Hnow & Hc & Hst & Hup).
  unfold remote_view. rewrite Hnow, Hc, Hst, Hup. reflexivity.
Qed.

Lemma get_data_other (key other : string) (w : World) :
  key <> other ->
  NodeCache.data (memoryCache (snd (CacheService.get key w))) !! other
  = NodeCache.data (memoryCache w) !! other.
Proof.
  intros Hne. rewrite get_memoryCache. cbv zeta.
  assert (Hc1 := NodeCache_get_data key other (now w) (memoryCache w) (or_introl Hne)).
  destruct (truthy_opt (local_view key w)); [exact Hc1|].
  destruct (remote_view key w); try exact Hc1.
  destruct (JSON_parse s); [|exact Hc1].
  unfold NodeCache.set. simpl. rewrite lookup_insert_ne by exact Hne. exact Hc1.
Qed.

(** A [get] of a key other than "__proto__" leaves what is under
    "__proto__". *)
Lemma get_data_proto (key : string) (w : World) :
  key <> "__proto__" ->
  NodeCache.data (memoryCache (snd (CacheService.get key w))) !! "__proto__"
  = NodeCache.data (memoryCache w) !! "__proto__".
Proof. apply get_data_other. Qed.

Lemma get_local_view_other (key other : string) (w : World) :
  key <> other ->
  key <> "__proto__" ->
  local_view other (snd (CacheService.get key w)) = local_view other w.
Proof.
  intros Hne Hp. rewrite !local_view_lookup, get_data_other by exact Hne.
  destruct (get_frame key w) as (Hnow & _). rewrite Hnow.
  rewrite (inherited_by_proto other (now w) _ (memoryCache w)); [reflexivity|].
  apply get_data_proto. exact Hp.
Qed.

Lemma same_views_same_answer (key : string) (w1 w2 : World) :
  local_view key w1 = local_view key w2 ->
  remote_view key w1 = remote_view key w2 ->
  fst (CacheService.get key w1) = fst (CacheService.get key w2).
Proof.
  intros Hl Hr. rewrite !get_answer, Hl, Hr. reflexivity.
Qed.

Lemma get_other_after_set (key other : string) (val : value) (ttl : option Z) (w : World) :
  key <> other ->
  key <> "__proto__" ->
  fst (CacheService.get other (snd (CacheService.set key val ttl w)))
  = fst (CacheService.get other w).
Proof.
  intros Hne Hp. destruct (set_observed key val ttl w) as (Hc & Hs).
  apply same_views_same_answer.
  - rewrite !local_view_lookup, set_memoryCache, set_now. unfold NodeCache.set. simpl.
    rewrite lookup_insert_ne by exact Hne.
    rewrite (inherited_by_proto other (now w) _ (memoryCache w)); [reflexivity|].
    simpl. apply lookup_insert_ne. exact Hp.
  - unfold remote_view. rewrite Hc, Hs, set_now. reflexivity.
Qed.

Lemma NodeCache_del_data (key other : string) (c : NodeCache.Cache) :
  key <> other \/ other = "__proto__" ->
  NodeCache.data (snd (NodeCache.del key c)) !! other = NodeCache.data c !! other.
Proof.
  intros Hne. unfold NodeCache.del.
  destruct (NodeCache.data c !! key); simpl; [|reflexivity].
  apply remove_data. exact Hne.
Qed.

Lemma get_other_after_delete (key other : string) (w : World) :
  key <> other ->
  fst (CacheService.get other (snd (CacheService.delete key w)))
  = fst (CacheService.get other w).
Proof.
  intros Hne. destruct (delete_observed key w) as (Hc & Hup & Hnow & Hst).
  apply same_views_same_answer.
  - rewrite !local_view_lookup, delete_memoryCache, Hnow.
    rewrite NodeCache_del_data by (left; exact Hne).
    rewrite (inherited_by_proto other (now w) _ (memoryCache w)); [reflexivity|].
    apply NodeCache_del_data. right. reflexivity.
  - unfold remote_view. rewrite Hc, Hup, Hst, Hnow by exact Hne. reflexivity.
Qed.

Lemma get_other_after_get (key other : string) (w : World) :
  key <> other ->
  key <> "__proto__" ->
  fst (CacheService.get other (snd (CacheService.get key w)))
  = fst (CacheService.get other w).
Proof.
  intros Hne Hp. apply same_views_same_answer.
  - apply get_local_view_other; assumption.
  - apply get_remote_view.
Qed.

Lemma remote_view_payload (key payload : string) (expiry : Z) (w : World) :
  is_Some (redisClient w) ->
  Redis.up (server w) = true ->
  Redis.store (server w) !! key = Some (payload, expiry) ->
  now w < expiry ->
  payload <> "" ->
  remote_view key w = Payload payload.
Proof.
  intros [c Hc] Hup Hst Hlive Hne. unfold remote_view, Redis.live.
  rewrite Hc, Hup, Hst. simpl.
  apply Z.ltb_lt in Hlive. apply String.eqb_neq in Hne. rewrite Hlive, Hne. reflexivity.
Qed.

(** What the memory cache gives for the key right after a [get] of it:
    nothing truthy where neither tier had something to give. *)
Lemma get_local_view_miss (key : string) (w : World) :
  key <> "v" \/ NodeCache.data (memoryCache w) !! "__proto__" = None ->
  truthy_opt (local_view key w) = false ->
  (forall s x, remote_view key w = Payload s -> JSON_parse s = Some x -> truthy x = false) ->
  truthy_opt (local_view key (snd (CacheService.get key w))) = false.
Proof.
  intros Hk Hl Hr. unfold local_view at 1. rewrite get_memoryCache. cbv zeta.
  destruct (get_frame key w) as (-> & _).
  pose proof (NodeCache_get_again key (now w) (memoryCache w) Hk Hl) as Hagain.
  rewrite Hl.
  destruct (remote_view key w) eqn:Hrv; try exact Hagain.
  destruct (JSON_parse s) as [x|] eqn:Hp; [|exact Hagain].
  rewrite NodeCache_get_set by lia. simpl. eapply Hr; eauto.
Qed.



End Laws.


(** ** Keys of the middleware *)

Lemma cache_key_inj (req1 req2 : Request) :
  cache_key req1 = cache_key req2 -> originalUrl req1 = originalUrl req2.
Proof.
  unfold cache_key. intros Heq. exact (String.app_inj "cache:" _ _ Heq).
Qed.

(** A key of the middleware starts with "cache:": it is none of the names
    a plain object answers to on its own. *)
Lemma cache_key_inherited `{JSON} (req : Request) (now : Z) (c : NodeCache.Cache) :
  NodeCache.inherited (cache_key req) now c = None.
Proof.
  unfold NodeCache.inherited.
  assert (H1 : String.eqb (cache_key req) "__proto__"
               || existsb (String.eqb (cache_key req)) NodeCache.Object_prototype_names
               = false) by (destruct req; reflexivity).
  assert (H2 : String.eqb (cache_key req) "t" = false) by (destruct req; reflexivity).
  assert (H3 : String.eqb (cache_key req) "v" = false) by (destruct req; reflexivity).
  rewrite H1, H2, H3.
  destruct (NodeCache.data c !! "__proto__"); reflexivity.
Qed.

Lemma cache_key_not_v (req : Request) : cache_key req <> "v".
Proof. unfold cache_key. destruct req as [u]. cbv. discriminate. Qed.

Lemma cache_key_not_proto (req : Request) : cache_key req <> "__proto__".
Proof. unfold cache_key. destruct req as [u]. cbv. discriminate. Qed.

(** ** Set, then get *)




(** ** Remote failures reach the caller of [get] *)

Section RemoteFailure.
Context `{JSON}.

(** What [get] does once the memory cache gave nothing truthy, the client
    object is in place and the server fails the command. *)
Lemma get_rejects_when_down (key : string) (w : World) :
  is_Some (redisClient w) ->
  Redis.up (server w) = false ->
  truthy_opt (fst (NodeCache.get key (now w) (memoryCache w))) = false ->
  CacheService.get key w
  = (Rejected (RedisError Redis.ConnectionLost),
     with_server (with_memoryCache w (snd (NodeCache.get key (now w) (memoryCache w))))
       (Redis.sent (Redis.GET key) (server w))).
Proof.
  intros [c Hc] Hup Hmiss.
  unfold CacheService.get, bind, memoryCache_get.
  destruct (NodeCache.get key (now w) (memoryCache w)) as [r c1] eqn:E.
  simpl in *. rewrite Hmiss.
  unfold CacheService.get_redis, bind, read_redisClient. simpl. rewrite Hc.
  unfold redisClient_get, lift_reply, Redis.get. simpl. rewrite Hup. reflexivity.
Qed.

End RemoteFailure.

(** C2, as the code has it: with the client object in place and the server
    failing, [get] answers a truthy local value without asking the server,
    and otherwise rejects with the server's failure; it is [cacheMiddleware]
    that catches the rejection, calls [next()] and lets the handler's output
    through, leaving [res.json] as it was (nothing is cached). *)
Theorem C2_remote_get_failure `{JSON} (key : string) (w : World)
    (duration : option Z) (handler : HandlerOut) (req : Request) :
  is_Some (redisClient w) ->
  Redis.up (server w) = false ->
  (forall x, NodeCache.get key (now w) (memoryCache w) = (Some x, memoryCache w) ->
             truthy x = true -> CacheService.get key w = (Returned x, w))
  /\ (truthy_opt (fst (NodeCache.get key (now w) (memoryCache w))) = false ->
      fst (CacheService.get key w) = Rejected (RedisError Redis.ConnectionLost))
  /\ (truthy_opt (fst (NodeCache.get (cache_key req) (now w) (memoryCache w))) = false ->
      fst (cacheMiddleware duration handler req w)
        = {| next_called := true; sent := original_send handler |}
      /\ snd (cacheMiddleware duration handler req w) = snd (CacheService.get (cache_key req) w)).
Proof.
  intros Hc Hup. split; [|split].
  - intros x Hx Ht. apply get_memory_hit; assumption.
  - intros Hmiss. rewrite get_rejects_when_down by assumption. reflexivity.
  - intros Hmiss. unfold cacheMiddleware.
    rewrite get_rejects_when_down by assumption. split; reflexivity.
Qed.

Lemma C2_remote_get_failure_witness :
  fst (CacheService.get "k" remote_down) = Rejected (RedisError Redis.ConnectionLost).
Proof.
  apply (C2_remote_get_failure "k" remote_down None (NextError "") {| originalUrl := "/" |}).
  - vm_compute. eexists. reflexivity.
  - reflexivity.
  - reflexivity.
Defined.

(** C2 fails: the client object in place, the server failing and nothing
    in the memory cache, [get] rejects with the remote error instead of
    answering a miss. *)
Lemma C2_counterexample :
  is_Some (redisClient remote_down) /\
  Redis.up (server remote_down) = false /\
  fst (CacheService.get "k" remote_down) = Rejected (RedisError Redis.ConnectionLost) /\
  forall x : value,
    fst (CacheService.get "k" remote_down) <> Returned x.
Proof.
  split; [vm_compute; eexists; reflexivity|]. split; [reflexivity|].
  split; [vm_compute; reflexivity|]. intros x. vm_compute. discriminate.
Qed.

(** ** The remote write of [set] *)

(** C7, as the code has it: [set] first writes the local entry with the ttl
    (300 when none is given), in every case.  Without a client it then
    returns.  With a client it calls [redisClient.setex], which the client of
    redis 4 does not have: the call throws a TypeError, the promise of [set]
    is rejected with it, and no command is sent; the server is as it was, and
    the local entry stays. *)
Theorem C7_set_with_client_throws `{JSON} (key : string) (val : value) (ttl : option Z)
    (w : World) :
  let seconds := default 300 ttl in
  let r := fst (CacheService.set key val ttl w) in
  let w' := snd (CacheService.set key val ttl w) in
  w' = with_memoryCache w (NodeCache.set key val (Some seconds) (now w) (memoryCache w))
  /\ memoryCache w' = NodeCache.set key val (Some seconds) (now w) (memoryCache w)
  /\ server w' = server w
  /\ match redisClient w with
     | None => r = Returned tt
     | Some _ => r = Rejected TypeError
     end.
Proof.
  intros seconds r w'. subst r w' seconds. rewrite set_unfold. simpl.
  split; [reflexivity|]. split; [reflexivity|]. split; [reflexivity|].
  destruct (redisClient w); reflexivity.
Qed.

(** C7 on a run: REDIS_URL set, the server reachable and empty.
    [set("k", {name: "Ada"}, 300)] is rejected with the TypeError, the wire
    stays silent, the server holds nothing under the key, and the local entry
    is in place. *)
Lemma C7_failing_input :
  fst (CacheService.set "k" ada (Some 300) two_tier) = Rejected TypeError
  /\ Redis.wire (server (snd (CacheService.set "k" ada (Some 300) two_tier))) = []
  /\ Redis.store (server (snd (CacheService.set "k" ada (Some 300) two_tier))) !! "k" = None
  /\ NodeCache.data (memoryCache (snd (CacheService.set "k" ada (Some 300) two_tier))) !! "k"
     = Some {| NodeCache.t := 301000; NodeCache.v := ada |}.
Proof.
  repeat split; vm_compute; reflexivity.
Qed.

(** ** No check of the ttl *)

Section Middleware_laws.
Context `{JSON}.

Lemma next_called_missed (duration : option Z) (handler : HandlerOut)
    (req : Request) (w : World) :
  next_called (fst (cacheMiddleware duration handler req w))
  = missed (fst (CacheService.get (cache_key req) w)).
Proof.
  unfold cacheMiddleware.
  destruct (CacheService.get (cache_key req) w) as [[x|e] w1]; simpl; [|reflexivity].
  destruct (truthy x); simpl; [reflexivity|].
  destruct (next_overridden _ _ _ _). reflexivity.
Qed.

(** On a lookup that returned something falsy, whatever the handler passes
    to [res.json] is sent on unchanged and handed to [CacheService.set],
    with no look at the status code or at the duration. *)
Lemma middleware_miss_json (duration : option Z) (code : Z) (data x : value)
    (req : Request) (w w1 : World) :
  CacheService.get (cache_key req) w = (Returned x, w1) ->
  truthy x = false ->
  cacheMiddleware duration (ResJson code data) req w
  = ({| next_called := true; sent := SentJson code data |},
     snd (CacheService.set (cache_key req) data (Some (default 300 duration)) w1)).
Proof.
  intros Hget Hx. unfold cacheMiddleware. rewrite Hget, Hx. reflexivity.
Qed.

(** A handler that fails without calling [res.json]: the error goes on as
    it is and the world is the one the lookup left. *)
Lemma middleware_next_error (duration : option Z) (err : string)
    (req : Request) (w : World) :
  missed (fst (CacheService.get (cache_key req) w)) = true ->
  cacheMiddleware duration (NextError err) req w
  = ({| next_called := true; sent := SentError err |},
     snd (CacheService.get (cache_key req) w)).
Proof.
  unfold cacheMiddleware.
  destruct (CacheService.get (cache_key req) w) as [[x|e] w1]; simpl; [|reflexivity].
  destruct (truthy x); simpl; [discriminate|reflexivity].
Qed.

(** With nothing under the key in the memory cache, own or inherited, and
    the remote tier either switched off or reachable and without the key,
    [get] answers [null] and leaves both stores as they were. *)
Lemma get_no_entry (key : string) (w : World) :
  NodeCache.data (memoryCache w) !! key = None ->
  truthy_opt (NodeCache.inherited key (now w) (memoryCache w)) = false ->
  redisClient w = None
  \/ (Redis.up (server w) = true /\ Redis.store (server w) !! key = None) ->
  fst (CacheService.get key w) = Returned VNull
  /\ memoryCache (snd (CacheService.get key w)) = memoryCache w
  /\ now (snd (CacheService.get key w)) = now w
  /\ redisClient (snd (CacheService.get key w)) = redisClient w
  /\ Redis.store (server (snd (CacheService.get key w))) = Redis.store (server w)
  /\ Redis.up (server (snd (CacheService.get key w))) = Redis.up (server w).
Proof.
  intros Hloc Hinh Hrem.
  assert (Hlv : truthy_opt (local_view key w) = false)
    by (rewrite local_view_lookup, Hloc; exact Hinh).
  assert (Hrv : remote_view key w = Disabled \/ remote_view key w = Absent).
  { unfold remote_view. destruct Hrem as [->|[-> ->]]; [left; reflexivity|].
    destruct (redisClient w); [right|left]; reflexivity. }
  destruct (get_frame key w) as (Hnow & Hc & Hst & Hup).
  split; [|split; [|auto]].
  - rewrite get_answer, Hlv. destruct Hrv as [-> | ->]; reflexivity.
  - rewrite get_memoryCache, Hlv. cbv zeta.
    assert (Hc1 : snd (NodeCache.get key (now w) (memoryCache w)) = memoryCache w)
      by (unfold NodeCache.get; rewrite Hloc; reflexivity).
    destruct Hrv as [-> | ->]; exact Hc1.
Qed.

(** The same for a key of the middleware. *)
Lemma get_no_cached_response (req : Request) (w : World) :
  NodeCache.data (memoryCache w) !! cache_key req = None ->
  redisClient w = None
  \/ (Redis.up (server w) = true /\ Redis.store (server w) !! cache_key req = None) ->
  fst (CacheService.get (cache_key req) w) = Returned VNull
  /\ memoryCache (snd (CacheService.get (cache_key req) w)) = memoryCache w
  /\ now (snd (CacheService.get (cache_key req) w)) = now w
  /\ redisClient (snd (CacheService.get (cache_key req) w)) = redisClient w
  /\ Redis.store (server (snd (CacheService.get (cache_key req) w))) = Redis.store (server w)
  /\ Redis.up (server (snd (CacheService.get (cache_key req) w))) = Redis.up (server w).
Proof.
  intros Hloc Hrem. apply get_no_entry; [exact Hloc| |exact Hrem].
  rewrite cache_key_inherited. reflexivity.
Qed.

(** A lookup that missed (or threw) misses (or throws) again when it is
    repeated at once: nothing it does on the way makes the key truthy. *)
Lemma get_miss_again (key : string) (w : World) :
  key <> "v" \/ NodeCache.data (memoryCache w) !! "__proto__" = None ->
  missed (fst (CacheService.get key w)) = true ->
  missed (fst (CacheService.get key (snd (CacheService.get key w)))) = true.
Proof.
  intros Hk Hm. rewrite get_answer in Hm.
  destruct (truthy_opt (local_view key w)) eqn:Hlv.
  { destruct (local_view key w) as [x|]; simpl in *; [|discriminate].
    rewrite Hlv in Hm. discriminate. }
  assert (Hagain : truthy_opt (local_view key (snd (CacheService.get key w))) = false).
  { apply get_local_view_miss; [exact Hk | exact Hlv |].
    intros s x Hr Hp. rewrite Hr in Hm. simpl in Hm. rewrite Hp in Hm.
    apply negb_true_iff. exact Hm. }
  rewrite get_answer, Hagain, get_remote_view. exact Hm.
Qed.

End Middleware_laws.

(** C3, as the code has it: neither [set] nor [cacheMiddleware] looks at
    the sign of the ttl.  For ttl <= 0 [set] still writes a local entry for
    the key, one that never expires when ttl = 0, and without a remote
    client it returns normally; [cacheMiddleware] with such a duration still
    runs the handler on a miss, sends its output and stores it the same
    way. *)
Theorem C3_no_ttl_validation `{JSON} (key : string) (val : value) (ttl : Z) (w : World)
    (code : Z) (req : Request) :
  ttl <= 0 ->
  let entry := {| NodeCache.t := if ttl =? 0 then 0 else now w + ttl * 1000;
                  NodeCache.v := val |} in
  NodeCache.data (memoryCache (snd (CacheService.set key val (Some ttl) w))) !! key
    = Some entry
  /\ (redisClient w = None -> fst (CacheService.set key val (Some ttl) w) = Returned tt)
  /\ (NodeCache.data (memoryCache w) !! cache_key req = None ->
      redisClient w = None ->
      fst (cacheMiddleware (Some ttl) (ResJson code val) req w)
        = {| next_called := true; sent := SentJson code val |}
      /\ NodeCache.data
           (memoryCache (snd (cacheMiddleware (Some ttl) (ResJson code val) req w)))
           !! cache_key req
         = Some entry).
Proof.
  intros Httl entry. subst entry. split; [|split].
  - rewrite set_memoryCache. unfold NodeCache.set. simpl. apply lookup_insert_eq.
  - intros Hc. rewrite set_unfold, Hc. reflexivity.
  - intros Hloc Hc.
    destruct (get_no_cached_response req w Hloc (or_introl Hc))
      as (Hr & Hmc & Hnow & _).
    destruct (CacheService.get (cache_key req) w) as [r w1] eqn:Hget. simpl in *. subst r.
    rewrite (middleware_miss_json (Some ttl) code val VNull req w w1 Hget eq_refl).
    split; [reflexivity|]. simpl.
    rewrite set_memoryCache. unfold NodeCache.set. simpl.
    rewrite lookup_insert_eq, Hnow. reflexivity.
Qed.

Lemma C3_no_ttl_validation_witness :
  0 <= 0 /\
  NodeCache.data (memoryCache (snd (CacheService.set "k" ada (Some 0) local_only))) !! "k"
  = Some {| NodeCache.t := 0; NodeCache.v := ada |}.
Proof.
  split; [lia|].
  exact (proj1 (C3_no_ttl_validation "k" ada 0 local_only 200 {| originalUrl := "/" |}
                  (Z.le_refl 0))).
Defined.

(** C3 fails: in local-only mode [set(k, v, 0)] returns normally and
    stores an entry that never expires, which a [get] a day later still
    answers; [set(k, v, -5)] returns normally too and leaves an entry in the
    memory cache. *)
Lemma C3_counterexample :
  fst (CacheService.set "k" ada (Some 0) local_only) = Returned tt
  /\ NodeCache.data (memoryCache (snd (CacheService.set "k" ada (Some 0) local_only))) !! "k"
     = Some {| NodeCache.t := 0; NodeCache.v := ada |}
  /\ fst (CacheService.get "k"
            (with_now (snd (CacheService.set "k" ada (Some 0) local_only)) 86401000))
     = Returned ada
  /\ fst (CacheService.set "k" ada (Some (-5)) local_only) = Returned tt
  /\ NodeCache.data (memoryCache (snd (CacheService.set "k" ada (Some (-5)) local_only))) !! "k"
     = Some {| NodeCache.t := -4000; NodeCache.v := ada |}.
Proof.
  repeat split; vm_compute; reflexivity.
Qed.

(** ** Memoisation *)




(** The same with a truthy body when the client object is in place and the
    server fails the command: the lookup throws, [res.json] is never replaced
    and every request runs the handler. *)
Lemma memoize_uncached_when_remote_down :
  let req := {| originalUrl := "/api/surveys" |} in
  let first := cacheMiddleware (Some 300) (ResJson 200 ada) req remote_down in
  let second := cacheMiddleware (Some 300) (ResJson 200 ada) req (snd first) in
  next_called (fst first) = true
  /\ next_called (fst second) = true
  /\ NodeCache.data (memoryCache (snd second)) !! cache_key req = None.
Proof.
  repeat split; vm_compute; reflexivity.
Qed.

(** C5, as the code has it: when the handler runs and fails without
    calling [res.json] (it throws or passes the error to Express), the error
    goes to the caller as it is, the middleware stores nothing (the world is
    the one the lookup left) and the next request runs the handler again.
    Whatever the handler passes to [res.json] is stored under the key, for
    every status code: an error body sent with [res.status(500).json(..)]
    is cached like a success. *)
Theorem C5_memoize_error `{JSON} (req : Request) (duration : option Z) (err : string)
    (again : HandlerOut) (code : Z) (data : value) (w : World) :
  missed (fst (CacheService.get (cache_key req) w)) = true ->
  let first := cacheMiddleware duration (NextError err) req w in
  fst first = {| next_called := true; sent := SentError err |}
  /\ snd first = snd (CacheService.get (cache_key req) w)
  /\ next_called (fst (cacheMiddleware duration again req (snd first))) = true
  /\ (forall x, fst (CacheService.get (cache_key req) w) = Returned x ->
      NodeCache.data
        (memoryCache (snd (cacheMiddleware duration (ResJson code data) req w)))
        !! cache_key req
      = Some (NodeCache._wrap (memoryCache w) (now w) data (Some (default 300 duration)))).
Proof.
  intros Hm first. subst first.
  rewrite (middleware_next_error duration err req w Hm). simpl.
  split; [reflexivity|]. split; [reflexivity|]. split.
  - rewrite next_called_missed. apply get_miss_again; [|exact Hm].
    left. apply cache_key_not_v.
  - intros x Hx.
    destruct (CacheService.get (cache_key req) w) as [r w1] eqn:Hget. simpl in *. subst r.
    rewrite (middleware_miss_json duration code data x req w w1 Hget).
    + simpl. rewrite set_memoryCache. unfold NodeCache.set. simpl.
      rewrite lookup_insert_eq.
      pose proof (get_frame (cache_key req) w) as (Hnow & _).
      rewrite Hget in Hnow. simpl in Hnow. rewrite Hnow. reflexivity.
    + apply negb_true_iff. exact Hm.
Qed.

Lemma C5_memoize_error_witness :
  let req := {| originalUrl := "/api/surveys" |} in
  let first := cacheMiddleware (Some 300) (NextError "db down") req two_tier in
  fst first = {| next_called := true; sent := SentError "db down" |}
  /\ next_called (fst (cacheMiddleware (Some 300) (NextError "db down") req (snd first)))
     = true.
Proof.
  pose proof (C5_memoize_error {| originalUrl := "/api/surveys" |} (Some 300) "db down"
                (NextError "db down") 500 VNull two_tier eq_refl) as (H1 & _ & H3 & _).
  split; [exact H1 | exact H3].
Defined.

(** C5 fails for an error emitted through [res.json]: in local-only mode a
    handler answering [res.status(500).json({message})] has that body stored;
    the next request does not run the handler and is served the error body
    with status 200. *)
Lemma C5_counterexample :
  let req := {| originalUrl := "/api/surveys" |} in
  let failure := ResJson 500 (VObj [("message", VStr "db down")]) in
  let first := cacheMiddleware (Some 300) failure req local_only in
  let second := cacheMiddleware (Some 300) failure req (snd first) in
  fst first = {| next_called := true; sent := SentJson 500 (VObj [("message", VStr "db down")]) |}
  /\ NodeCache.data (memoryCache (snd first)) !! cache_key req
     = Some {| NodeCache.t := 301000; NodeCache.v := VObj [("message", VStr "db down")] |}
  /\ fst second
     = {| next_called := false; sent := SentJson 200 (VObj [("message", VStr "db down")]) |}.
Proof.
  repeat split; vm_compute; reflexivity.
Qed.

(** ** Promotion *)

(** C6, as the code has it: when the server is reachable and holds under
    the key a live, non-empty payload that parses to a value other than
    [null], and the memory cache has nothing for the key, [get] answers that
    value, found, and has written it into the memory cache with the fixed
    ttl of 60 seconds, where an inspection right after finds the key. *)
Theorem C6_promotion `{JSON} (key payload : string) (expiry : Z) (val : value) (w : World) :
  is_Some (redisClient w) ->
  Redis.up (server w) = true ->
  Redis.store (server w) !! key = Some (payload, expiry) ->
  now w < expiry ->
  payload <> "" ->
  JSON_parse payload = Some val ->
  val <> VNull ->
  fst (NodeCache.get key (now w) (memoryCache w)) = None ->
  let w' := snd (CacheService.get key w) in
  fst (CacheService.get key w) = Returned val
  /\ found val = true
  /\ NodeCache.data (memoryCache w') !! key
     = Some {| NodeCache.t := now w + 60 * 1000; NodeCache.v := val |}
  /\ NodeCache.has key (now w') (memoryCache w') = (true, memoryCache w').
Proof.
  intros Hc Hup Hst Hlive Hne Hparse Hnn Hloc w'. subst w'.
  assert (Hfound : found val = true) by (destruct val; simpl; congruence).
  assert (Hrv : remote_view key w = Payload payload)
    by (eapply remote_view_payload; eauto).
  assert (Hlv : local_view key w = None) by exact Hloc.
  assert (Hdata : NodeCache.data (memoryCache (snd (CacheService.get key w))) !! key
                  = Some {| NodeCache.t := now w + 60 * 1000; NodeCache.v := val |}).
  { rewrite get_memoryCache, Hlv, Hrv, Hparse. simpl. apply lookup_insert_eq. }
  split; [|split; [exact Hfound | split; [exact Hdata|]]].
  - rewrite get_answer, Hlv, Hrv. simpl. rewrite Hparse. reflexivity.
  - unfold NodeCache.has. rewrite Hdata.
    destruct (get_frame key w) as (-> & _).
    rewrite expired_fresh by lia. reflexivity.
Qed.

Lemma C6_promotion_witness :
  let w := remote_holds (JSON_stringify ada) 301000 in
  let w' := snd (CacheService.get "k" w) in
  fst (CacheService.get "k" w) = Returned ada
  /\ found ada = true
  /\ NodeCache.data (memoryCache w') !! "k"
     = Some {| NodeCache.t := now w + 60 * 1000; NodeCache.v := ada |}
  /\ NodeCache.has "k" (now w') (memoryCache w') = (true, memoryCache w').
Proof.
  apply (C6_promotion "k" (JSON_stringify ada) 301000 ada
           (remote_holds (JSON_stringify ada) 301000)).
  - vm_compute. eexists. reflexivity.
  - reflexivity.
  - reflexivity.
  - reflexivity.
  - discriminate.
  - vm_compute. reflexivity.
  - discriminate.
  - reflexivity.
Defined.

(** C6 fails for the value [null]: with the payload "null" on the server
    and nothing in the memory cache, [get] answers [null], which is the
    answer it gives for a key held by neither tier, though it did write the
    key into the memory cache. *)
Lemma C6_counterexample :
  let w := remote_holds "null" 301000 in
  JSON_parse "null" = Some VNull
  /\ NodeCache.data (memoryCache w) !! "k" = None
  /\ fst (CacheService.get "k" w) = Returned VNull
  /\ found VNull = false
  /\ fst (CacheService.get "k" w) = fst (CacheService.get "absent" w)
  /\ NodeCache.data (memoryCache (snd (CacheService.get "k" w))) !! "k"
     = Some {| NodeCache.t := 61000; NodeCache.v := VNull |}.
Proof.
  repeat split; vm_compute; reflexivity.
Qed.

(** The promotion ttl is the constant 60, not a bound taken from the remote
    entry: promoted five seconds before the remote entry expires, the value
    is still served from the memory cache after the server has dropped it. *)
Lemma promotion_can_outlive_remote :
  let w := remote_holds (JSON_stringify ada) 6000 in
  let later := with_now (snd (CacheService.get "k" w)) 10000 in
  fst (CacheService.get "k" w) = Returned ada
  /\ fst (Redis.get "k" (now later) (server later)) = inr None
  /\ fst (CacheService.get "k" later) = Returned ada.
Proof.
  repeat split; vm_compute; reflexivity.
Qed.


(** ** Deletion *)

Section Delete_laws.
Context `{JSON}.

(** Where nothing was stored under "__proto__", or for a name other than
    "__proto__" and "v", what is inherited under the name is [null] at
    most. *)
Lemma inherited_null (key : string) (now : Z) (c : NodeCache.Cache) :
  key <> "v" \/ NodeCache.data c !! "__proto__" = None ->
  default VNull (NodeCache.inherited key now c) = VNull.
Proof.
  intros Hk. unfold NodeCache.inherited.
  destruct (String.eqb key "__proto__" || existsb (String.eqb key) NodeCache.Object_prototype_names);
    [reflexivity|].
  destruct (NodeCache.data c !! "__proto__") as [proto|] eqn:Hp; [|reflexivity].
  destruct (String.eqb key "t"); [reflexivity|].
  destruct (String.eqb key "v") eqn:Hv; [|reflexivity].
  apply String.eqb_eq in Hv. destruct Hk as [Hk|Hk]; [contradiction | discriminate].
Qed.

Lemma NodeCache_del_gone (key : string) (c : NodeCache.Cache) :
  NodeCache.data c !! "__proto__" = None \/ key <> "__proto__" ->
  NodeCache.data (snd (NodeCache.del key c)) !! key = None.
Proof.
  intros Hk. unfold NodeCache.del.
  destruct (NodeCache.data c !! key) as [e|] eqn:He; simpl; [|exact He].
  apply remove_data_eq. destruct Hk as [Hk|Hk]; [|exact Hk].
  intros ->. congruence.
Qed.

(** After [del] the memory cache gives [null] at most for the key. *)
Lemma NodeCache_get_del (key : string) (now : Z) (c : NodeCache.Cache) :
  NodeCache.data c !! "__proto__" = None \/ (key <> "__proto__" /\ key <> "v") ->
  default VNull (fst (NodeCache.get key now (snd (NodeCache.del key c)))) = VNull.
Proof.
  intros Hk. rewrite NodeCache_get_lookup, NodeCache_del_gone by tauto.
  apply inherited_null.
  destruct Hk as [Hk|[_ Hk]]; [right|left; exact Hk].
  rewrite NodeCache_del_data by (right; reflexivity). exact Hk.
Qed.

(** Deleting a key the memory cache has no entry for changes nothing
    there. *)
Lemma NodeCache_del_absent (key : string) (c : NodeCache.Cache) :
  NodeCache.data c !! key = None ->
  snd (NodeCache.del key c) = c.
Proof.
  intros Hk. unfold NodeCache.del. rewrite Hk. reflexivity.
Qed.

Lemma get_after_delete (key : string) (w : World) :
  NodeCache.data (memoryCache w) !! "__proto__" = None
  \/ (key <> "__proto__" /\ key <> "v") ->
  redisClient w = None \/ Redis.up (server w) = true ->
  fst (CacheService.get key (snd (CacheService.delete key w))) = Returned VNull.
Proof.
  intros Hk Hrem. rewrite get_answer.
  assert (Hlv : truthy_opt (local_view key (snd (CacheService.delete key w))) = false).
  { unfold local_view. rewrite delete_memoryCache.
    pose proof (NodeCache_get_del key (now (snd (CacheService.delete key w)))
                  (memoryCache w) Hk) as Hnull.
    destruct (fst (NodeCache.get _ _ _)) as [x|]; [|reflexivity].
    simpl in Hnull. subst x. reflexivity. }
  rewrite Hlv. unfold remote_view. rewrite delete_unfold. simpl.
  destruct (redisClient w) as [c|] eqn:Hc; simpl; rewrite Hc; [|reflexivity].
  destruct Hrem as [Hrem|Hup]; [discriminate|].
  destruct (Redis_del_frame key (server w)) as (Hup' & _ & Hst).
  rewrite Hup', Hup, Hst, Hup, lookup_delete_eq. reflexivity.
Qed.

End Delete_laws.

(** C9, as the code has it: [delete] is not [async] and returns normally in
    every world, so also after any number of earlier deletions of the key,
    and where the memory cache has no entry for the key it leaves the memory
    cache as it was.  After it, provided that nothing is stored under
    "__proto__" or that the key is neither "__proto__" nor "v", the memory
    cache gives [null] at most for the key, and [get] answers [null] (not
    found) whenever the remote tier is switched off or reachable. *)
Theorem C9_delete_idempotent `{JSON} (key : string) (n : nat) (w : World) :
  let deleted := Nat.iter n (fun w => snd (CacheService.delete key w)) w in
  fst (CacheService.delete key deleted) = Returned tt
  /\ (NodeCache.data (memoryCache w) !! key = None ->
      memoryCache (snd (CacheService.delete key w)) = memoryCache w)
  /\ (NodeCache.data (memoryCache w) !! "__proto__" = None
      \/ (key <> "__proto__" /\ key <> "v") ->
      default VNull
        (fst (NodeCache.get key (now w) (memoryCache (snd (CacheService.delete key w)))))
      = VNull
      /\ (redisClient w = None \/ Redis.up (server w) = true ->
          fst (CacheService.get key (snd (CacheService.delete key w))) = Returned VNull))
  /\ found VNull = false.
Proof.
  intros deleted. split; [apply delete_returns|]. split; [|split; [|reflexivity]].
  - intros Hk. rewrite delete_memoryCache. apply NodeCache_del_absent. exact Hk.
  - intros Hk. split.
    + rewrite delete_memoryCache. apply NodeCache_get_del. exact Hk.
    + apply get_after_delete. exact Hk.
Qed.

Lemma C9_delete_idempotent_witness :
  let w := snd (CacheService.set "k" ada (Some 300) two_tier) in
  fst (CacheService.get "k" w) = Returned ada
  /\ fst (CacheService.get "k" (snd (CacheService.delete "k" w))) = Returned VNull.
Proof.
  split; [vm_compute; reflexivity|].
  pose proof (C9_delete_idempotent "k" 3 (snd (CacheService.set "k" ada (Some 300) two_tier)))
    as (_ & _ & Hget & _).
  apply Hget; [left|right]; reflexivity.
Defined.

(** C9 fails for the key "__proto__": the entry [set] stores under it
    becomes the prototype of the store, which [delete] cannot remove.  In
    local-only mode, after [set("__proto__", v, 300)] and
    [delete("__proto__")], [get("__proto__")] still answers [v], found. *)
Lemma C9_counterexample :
  let w := snd (CacheService.set "__proto__" ada (Some 300) local_only) in
  fst (CacheService.delete "__proto__" w) = Returned tt
  /\ fst (CacheService.get "__proto__" (snd (CacheService.delete "__proto__" w)))
     = Returned ada
  /\ found ada = true
  /\ fst (NodeCache.get "__proto__" (now w)
            (memoryCache (snd (CacheService.delete "__proto__" w))))
     = Some ada.
Proof.
  repeat split; vm_compute; reflexivity.
Qed.

(** While an entry is stored under "__proto__", the key "v" reads through
    it: with the value [{v: 7}] there, [get("v")] answers 7, before and
    after [delete("v")]. *)
Lemma delete_cannot_hide_inherited :
  let w := snd (CacheService.set "__proto__" (VObj [("v", VNum 7)]) (Some 300) local_only) in
  NodeCache.data (memoryCache w) !! "v" = None
  /\ fst (CacheService.get "v" w) = Returned (VNum 7)
  /\ fst (CacheService.get "v" (snd (CacheService.delete "v" w))) = Returned (VNum 7).
Proof.
  repeat split; vm_compute; reflexivity.
Qed.

(** With the client object in place and the server failing, [delete]
    still returns, and the [get] after it throws the remote error. *)
Lemma get_after_delete_remote_down :
  fst (CacheService.delete "k" remote_down) = Returned tt
  /\ fst (CacheService.get "k" (snd (CacheService.delete "k" remote_down)))
     = Rejected (RedisError Redis.ConnectionLost).
Proof.
  split; vm_compute; reflexivity.
Qed.

(** ** The disabled remote tier *)

Section Runs.
Context `{JSON}.

(** With [redisClient = null] an operation is the operation of the local
    tier. *)
Lemma perform_disabled (op : Op) (w : World) :
  redisClient w = None ->
  perform op w = local_only_step op w.
Proof.
  intros Hc. destruct op as [key|key val ttl|key|ms]; unfold perform, local_only_step, bind.
  - rewrite get_disabled by exact Hc.
    destruct (NodeCache.get key (now w) (memoryCache w)) as [r c]. reflexivity.
  - rewrite set_unfold, Hc. reflexivity.
  - rewrite delete_unfold, Hc. reflexivity.
  - reflexivity.
Qed.

(** An operation of the local tier returns, and has nothing to do with the
    client variable or the server. *)
Lemma local_only_step_frame (op : Op) (w : World) :
  returned (fst (local_only_step op w)) = true
  /\ redisClient (snd (local_only_step op w)) = redisClient w
  /\ server (snd (local_only_step op w)) = server w
  /\ forall srv,
       local_only_step op (with_server w srv)
       = (fst (local_only_step op w), with_server (snd (local_only_step op w)) srv).
Proof.
  destruct op as [key|key val ttl|key|ms]; unfold local_only_step; simpl.
  - destruct (NodeCache.get key (now w) (memoryCache w)) as [r c]. simpl.
    repeat split; reflexivity.
  - repeat split; reflexivity.
  - repeat split; reflexivity.
  - repeat split; reflexivity.
Qed.

Lemma local_only_run_frame (ops : list Op) (w : World) :
  forallb returned (fst (local_only_run ops w)) = true
  /\ redisClient (snd (local_only_run ops w)) = redisClient w
  /\ server (snd (local_only_run ops w)) = server w
  /\ forall srv,
       local_only_run ops (with_server w srv)
       = (fst (local_only_run ops w), with_server (snd (local_only_run ops w)) srv).
Proof.
  revert w. induction ops as [|op rest IH]; intros w; simpl.
  - repeat split; auto.
  - destruct (local_only_step_frame op w) as (Hret & Hc1 & Hsrv1 & Hind1).
    destruct (local_only_step op w) as [o w1] eqn:Hop. simpl in *.
    destruct (IH w1) as (Hrets & Hc2 & Hsrv2 & Hind2).
    destruct (local_only_run rest w1) as [os w2] eqn:Hrun. simpl in *.
    rewrite Hret, Hrets. repeat split; auto.
    + congruence.
    + congruence.
    + intros srv. rewrite Hind1, Hind2. reflexivity.
Qed.

Lemma run_disabled (ops : list Op) (w : World) :
  redisClient w = None ->
  run ops w = local_only_run ops w.
Proof.
  revert w. induction ops as [|op rest IH]; intros w Hc; simpl; [reflexivity|].
  rewrite perform_disabled by exact Hc.
  destruct (local_only_step_frame op w) as (_ & Hc1 & _).
  destruct (local_only_step op w) as [o w1]. simpl in Hc1.
  rewrite IH by congruence. reflexivity.
Qed.

End Runs.

(** C8: once the [catch] callback of [connect()] has run, [redisClient] is
    [null]; from then on, through any sequence of [get], [set] and [delete]
    calls with any waits in between, it stays [null], every call returns
    normally, the server is sent nothing (its command log and its store are
    untouched), the answers do not depend on the server, and the calls are
    those of the local tier alone: answers and final state are the ones the
    same sequence of [memoryCache.get], [memoryCache.set] and
    [memoryCache.del] gives. *)
Theorem C8_disabled_is_permanent `{JSON} (ops : list Op) (w : World) (srv : Redis.Server) :
  let w0 := connect_failed w in
  redisClient w0 = None
  /\ forallb returned (fst (run ops w0)) = true
  /\ redisClient (snd (run ops w0)) = None
  /\ server (snd (run ops w0)) = server w
  /\ Redis.wire (server (snd (run ops w0))) = Redis.wire (server w)
  /\ fst (run ops (with_server w0 srv)) = fst (run ops w0)
  /\ run ops w0 = local_only_run ops w0.
Proof.
  intros w0.
  assert (Hrun : forall s, run ops (with_server w0 s) = local_only_run ops (with_server w0 s))
    by (intros s; apply run_disabled; reflexivity).
  assert (Hrun0 : run ops w0 = local_only_run ops w0) by (apply run_disabled; reflexivity).
  destruct (local_only_run_frame ops w0) as (Hret & Hc & Hsrv & Hind).
  rewrite Hrun, Hrun0, Hind.
  split; [reflexivity|]. split; [exact Hret|]. split; [exact Hc|].
  split; [exact Hsrv|]. split; [rewrite Hsrv; reflexivity|]. split; reflexivity.
Qed.

(** A run after a failed connection attempt: the same answers as without
    REDIS_URL, and nothing on the wire. *)
Lemma disabled_run_example :
  let ops := [Set_ "user:42" ada (Some 300); Get "user:42"; Wait 301000; Get "user:42";
              Set_ "n" (VNum 7) None; Delete "n"; Delete "n"; Get "n"] in
  fst (run ops (connect_failed remote_down))
  = [Returned Done; Returned (Value ada); Returned Done; Returned (Value VNull);
     Returned Done; Returned Done; Returned Done; Returned (Value VNull)]
  /\ fst (run ops (connect_failed remote_down)) = fst (run ops local_only)
  /\ Redis.wire (server (snd (run ops (connect_failed remote_down)))) = [].
Proof.
  repeat split; vm_compute; reflexivity.
Qed.

(** ** Values set while the client is in place *)



(** The round trip C10 describes is the one of a payload that something
    else has put on the server: [get] answers what [JSON.parse] makes of
    it. *)
Lemma get_parses_remote_payload :
  let w := remote_holds (JSON_stringify ada) 301000 in
  fst (CacheService.get "k" w)
  = match JSON_parse (JSON_stringify ada) with
    | Some x => Returned x
    | None => Rejected SyntaxError
    end.
Proof.
  vm_compute. reflexivity.
Qed.


(** * Further properties

    What the code shows beyond the statements above: how lookups, writes and
    deletions compose, what they leave alone, and the browser-side helpers
    of the dashboard. *)

Section Lookup_effects.
Context `{JSON}.


(** The sweep and the local view: a live entry stays, a dead one goes, and
    what is under "__proto__" stays in any case. *)
Lemma sweep_data (key : string) (w : World) :
  NodeCache.data (memoryCache (sweep w)) !! key
  = match NodeCache.data (memoryCache w) !! key with
    | Some e =>
        if String.eqb key "__proto__" then Some e
        else if NodeCache.expired (now w) e then None else Some e
    | None => None
    end.
Proof.
  unfold sweep, NodeCache._checkData. simpl. rewrite map_lookup_filter.
  destruct (NodeCache.data (memoryCache w) !! key) as [e|]; simpl; [|reflexivity].
  destruct (String.eqb key "__proto__") eqn:Hp.
  - apply String.eqb_eq in Hp. rewrite option_guard_True; [reflexivity|]. left. exact Hp.
  - apply String.eqb_neq in Hp. destruct (NodeCache.expired (now w) e) eqn:Hexp.
    + rewrite option_guard_False; [reflexivity|]. simpl. intros [?|?]; congruence.
    + rewrite option_guard_True; [reflexivity|]. right. reflexivity.
Qed.

End Lookup_effects.

(** ** Lookups, writes and deletions *)

(** X1: a key that neither tier holds.  With nothing under the key in the
    memory cache, and nothing truthy to inherit there (the key is not "v",
    or nothing is stored under "__proto__"), [get] answers [null]; without a
    remote client the world is left exactly as it was, and with a reachable
    server that lacks the key the only change is the one GET sent to it. *)
Theorem X1_get_of_absent_key `{JSON} (key : string) (w : World) :
  NodeCache.data (memoryCache w) !! key = None ->
  key <> "v" \/ NodeCache.data (memoryCache w) !! "__proto__" = None ->
  (redisClient w = None -> CacheService.get key w = (Returned VNull, w))
  /\ (is_Some (redisClient w) -> Redis.up (server w) = true ->
      Redis.store (server w) !! key = None ->
      CacheService.get key w
      = (Returned VNull, with_server w (Redis.sent (Redis.GET key) (server w)))).
Proof.
  intros Hloc Hk.
  pose proof (inherited_falsy key (now w) (memoryCache w) Hk) as Hinh.
  unfold CacheService.get, bind, memoryCache_get, NodeCache.get. rewrite Hloc, Hinh.
  destruct w as [n mc rc [st u wi]]. simpl in *.
  unfold CacheService.get_redis, bind, read_redisClient. simpl. split.
  - intros ->. reflexivity.
  - intros [c ->] -> Hst. unfold redisClient_get, lift_reply, Redis.get. simpl.
    rewrite Hst. reflexivity.
Qed.

Lemma X1_get_of_absent_key_witness :
  CacheService.get "k" local_only = (Returned VNull, local_only)
  /\ CacheService.get "k" two_tier
     = (Returned VNull, with_server two_tier (Redis.sent (Redis.GET "k") (server two_tier))).
Proof.
  pose proof (X1_get_of_absent_key "k" local_only eq_refl (or_intror eq_refl))
    as (Hlocal & _).
  pose proof (X1_get_of_absent_key "k" two_tier eq_refl (or_intror eq_refl))
    as (_ & Hremote).
  split; [apply Hlocal; reflexivity|].
  apply Hremote; [vm_compute; eexists; reflexivity | reflexivity | reflexivity].
Defined.

(** The key "v" while a value with a field [v] is stored under
    "__proto__": the memory cache has no entry for "v", and [get("v")]
    answers that field. *)
Lemma get_of_inherited_key :
  let w := snd (CacheService.set "__proto__" (VObj [("v", VNum 7)]) (Some 300) local_only) in
  NodeCache.data (memoryCache w) !! "v" = None
  /\ fst (CacheService.get "v" local_only) = Returned VNull
  /\ fst (CacheService.get "v" w) = Returned (VNum 7).
Proof.
  repeat split; vm_compute; reflexivity.
Qed.



(** A dead entry under "__proto__" is answered [null] and stays where it
    is. *)
Lemma dead_proto_entry_stays :
  let later := with_now (snd (CacheService.set "__proto__" ada (Some 300) local_only))
                 (now local_only + 300001) in
  fst (CacheService.get "__proto__" later) = Returned VNull
  /\ NodeCache.data (memoryCache (snd (CacheService.get "__proto__" later))) !! "__proto__"
     = Some {| NodeCache.t := 301000; NodeCache.v := ada |}.
Proof.
  split; vm_compute; reflexivity.
Qed.

(** X3: a falsy value cannot be read back from the local tier.  Without a
    remote client, whatever the ttl, [set] of [null], [false], [0] or the
    empty string does store an entry for the key, and the [get] that follows
    answers [null]. *)
Theorem X3_falsy_value_is_never_read_back `{JSON} (key : string) (val : value)
    (ttl : option Z) (w : World) :
  truthy val = false ->
  redisClient w = None ->
  NodeCache.data (memoryCache (snd (CacheService.set key val ttl w))) !! key
    = Some (NodeCache._wrap (memoryCache w) (now w) val (Some (default 300 ttl)))
  /\ fst (CacheService.get key (snd (CacheService.set key val ttl w))) = Returned VNull.
Proof.
  intros Hv Hc. split.
  - rewrite set_memoryCache. unfold NodeCache.set. simpl. apply lookup_insert_eq.
  - rewrite get_answer, local_view_lookup, set_memoryCache. unfold NodeCache.set. simpl.
    rewrite lookup_insert_eq. unfold remote_view.
    destruct (set_observed key val ttl w) as (-> & _). rewrite Hc.
    destruct (NodeCache.expired _ _); simpl; [reflexivity|]. rewrite Hv. reflexivity.
Qed.

Lemma X3_falsy_value_is_never_read_back_witness :
  fst (CacheService.get "count" (snd (CacheService.set "count" (VNum 0) None local_only)))
  = Returned VNull.
Proof.
  apply (X3_falsy_value_is_never_read_back "count" (VNum 0) None local_only); reflexivity.
Defined.

(** X4: operations on one key leave the others alone.  For two different
    keys, the first of them not "__proto__", what [get] answers for the
    second is the same before and after a [set], a [delete] or a [get] of
    the first, in every world and whatever the outcome of that operation. *)
Theorem X4_other_keys_are_untouched `{JSON} (key other : string) (val : value)
    (ttl : option Z) (w : World) :
  key <> other ->
  key <> "__proto__" ->
  fst (CacheService.get other (snd (CacheService.set key val ttl w)))
    = fst (CacheService.get other w)
  /\ fst (CacheService.get other (snd (CacheService.delete key w)))
     = fst (CacheService.get other w)
  /\ fst (CacheService.get other (snd (CacheService.get key w)))
     = fst (CacheService.get other w).
Proof.
  intros Hne Hp. split; [|split].
  - apply get_other_after_set; assumption.
  - apply get_other_after_delete. exact Hne.
  - apply get_other_after_get; assumption.
Qed.

Lemma X4_other_keys_are_untouched_witness :
  let w := snd (CacheService.set "a" ada (Some 300) two_tier) in
  fst (CacheService.get "a" (snd (CacheService.set "b" (VNum 7) None w))) = Returned ada
  /\ fst (CacheService.get "a" (snd (CacheService.delete "b" w))) = Returned ada.
Proof.
  intros w.
  pose proof (X4_other_keys_are_untouched "b" "a" (VNum 7) None w
                ltac:(discriminate) ltac:(discriminate))
    as (Hset & Hdel & _).
  split; [rewrite Hset | rewrite Hdel]; vm_compute; reflexivity.
Defined.

(** A [set] under "__proto__" is seen under another key: it changes what
    [get("v")] answers. *)
Lemma set_proto_changes_another_key :
  let w := snd (CacheService.set "__proto__" (VObj [("v", VNum 7)]) (Some 300) local_only) in
  fst (CacheService.get "v" local_only) = Returned VNull
  /\ fst (CacheService.get "v" w) = Returned (VNum 7).
Proof.
  split; vm_compute; reflexivity.
Qed.





(** X8: the periodic sweep of the memory cache ([checkperiod: 60]) is
    invisible to [get]: for every key that cannot inherit something truthy
    (any key but "v", and "v" too while nothing is stored under
    "__proto__"), the answer is the same whether or not the sweep has just
    run. *)
Theorem X8_sweep_is_invisible `{JSON} (key : string) (w : World) :
  key <> "v" \/ NodeCache.data (memoryCache w) !! "__proto__" = None ->
  fst (CacheService.get key (sweep w)) = fst (CacheService.get key w).
Proof.
  intros Hk. rewrite !get_answer.
  replace (remote_view key (sweep w)) with (remote_view key w) by reflexivity.
  rewrite !local_view_lookup, sweep_data.
  replace (now (sweep w)) with (now w) by reflexivity.
  assert (Hinh : NodeCache.inherited key (now w) (memoryCache (sweep w))
                 = NodeCache.inherited key (now w) (memoryCache w)).
  { apply inherited_by_proto. rewrite sweep_data.
    destruct (NodeCache.data (memoryCache w) !! "__proto__"); reflexivity. }
  pose proof (inherited_falsy key (now w) (memoryCache w) Hk) as Hf.
  destruct (NodeCache.data (memoryCache w) !! key) as [e|]; [|rewrite Hinh; reflexivity].
  destruct (String.eqb key "__proto__"); [reflexivity|].
  destruct (NodeCache.expired (now w) e) eqn:Hexp; [|rewrite Hexp; reflexivity].
  rewrite Hinh, Hf. reflexivity.
Qed.

Lemma X8_sweep_is_invisible_witness :
  let w := with_now (snd (CacheService.set "k" ada (Some 300) local_only)) 400000 in
  NodeCache.data (memoryCache w) !! "k" = Some {| NodeCache.t := 301000; NodeCache.v := ada |}
  /\ NodeCache.data (memoryCache (sweep w)) !! "k" = None
  /\ fst (CacheService.get "k" (sweep w)) = fst (CacheService.get "k" w).
Proof.
  intros w. split; [vm_compute; reflexivity|]. split; [vm_compute; reflexivity|].
  apply (X8_sweep_is_invisible "k" w). left. discriminate.
Defined.



(** A dead entry under "v" hides what the key inherits: the first [get]
    removes it and answers [null], the second answers the inherited
    value. *)
Lemma get_of_inherited_key_twice :
  let w0 := snd (CacheService.set "v" ada (Some 1) local_only) in
  let w1 := snd (CacheService.set "__proto__" (VObj [("v", VNum 7)]) (Some 300) w0) in
  let w := with_now w1 (now w1 + 2000) in
  fst (CacheService.get "v" w) = Returned VNull
  /\ fst (CacheService.get "v" (snd (CacheService.get "v" w))) = Returned (VNum 7)
  /\ fst (CacheService.get "v" (sweep w)) = Returned (VNum 7).
Proof.
  repeat split; vm_compute; reflexivity.
Qed.

(** ** The middleware *)

Section Routes.
Context `{JSON}.

(** What is served depends on the world only through the answer of the
    lookup. *)
Lemma served_by_answer (duration : option Z) (handler : HandlerOut) (req : Request)
    (w1 w2 : World) :
  fst (CacheService.get (cache_key req) w1) = fst (CacheService.get (cache_key req) w2) ->
  fst (cacheMiddleware duration handler req w1)
  = fst (cacheMiddleware duration handler req w2).
Proof.
  unfold cacheMiddleware. intros Heq.
  destruct (CacheService.get (cache_key req) w1) as [o1 u1].
  destruct (CacheService.get (cache_key req) w2) as [o2 u2].
  simpl in Heq. subst o2. destruct o1 as [x|e]; [|reflexivity].
  destruct (truthy x); [reflexivity|].
  unfold next_overridden, overridden_json. destruct handler; reflexivity.
Qed.


(** A lookup that answers something falsy is a miss: the handler runs and
    what it sends goes out. *)
Lemma middleware_miss (duration : option Z) (handler : HandlerOut) (req : Request)
    (x : value) (w : World) :
  fst (CacheService.get (cache_key req) w) = Returned x ->
  truthy x = false ->
  fst (cacheMiddleware duration handler req w)
  = {| next_called := true; sent := original_send handler |}.
Proof.
  intros Hans Hx. unfold cacheMiddleware.
  destruct (CacheService.get (cache_key req) w) as [r w1]. simpl in Hans. subst r.
  rewrite Hx. unfold next_overridden, overridden_json. destruct handler; reflexivity.
Qed.

(** A request leaves the answers for every other key as they were. *)
Lemma middleware_other_key (duration : option Z) (handler : HandlerOut) (req : Request)
    (other : string) (w : World) :
  cache_key req <> other ->
  fst (CacheService.get other (snd (cacheMiddleware duration handler req w)))
  = fst (CacheService.get other w).
Proof.
  intros Hne. unfold cacheMiddleware.
  pose proof (cache_key_not_proto req) as Hp.
  pose proof (get_other_after_get (cache_key req) other w Hne Hp) as Hget.
  destruct (CacheService.get (cache_key req) w) as [[x|e] w1]; simpl in *; [|exact Hget].
  destruct (truthy x); simpl; [exact Hget|].
  unfold next_overridden, overridden_json. destruct handler as [code data|err]; simpl.
  - rewrite get_other_after_set by assumption. exact Hget.
  - exact Hget.
Qed.

End Routes.

(** X10: two urls never share a cache entry.  Requests with different
    [originalUrl] have different cache keys, and serving one of them, with
    any handler and duration, does not change what the middleware then
    serves for the other. *)
Theorem X10_urls_do_not_share_entries `{JSON} (d1 d2 : option Z) (h1 h2 : HandlerOut)
    (req1 req2 : Request) (w : World) :
  originalUrl req1 <> originalUrl req2 ->
  cache_key req1 <> cache_key req2
  /\ fst (cacheMiddleware d2 h2 req2 (snd (cacheMiddleware d1 h1 req1 w)))
     = fst (cacheMiddleware d2 h2 req2 w).
Proof.
  intros Hne.
  assert (Hk : cache_key req1 <> cache_key req2).
  { intros Heq. apply Hne. apply cache_key_inj. exact Heq. }
  split; [exact Hk|].
  apply served_by_answer. apply middleware_other_key. exact Hk.
Qed.

Lemma X10_urls_do_not_share_entries_witness :
  let surveys := {| originalUrl := "/api/surveys" |} in
  let stats := {| originalUrl := "/api/surveys/stats" |} in
  fst (cacheMiddleware None (ResJson 200 (VNum 3)) stats
         (snd (cacheMiddleware None (ResJson 200 ada) surveys local_only)))
  = {| next_called := true; sent := SentJson 200 (VNum 3) |}.
Proof.
  intros surveys stats.
  pose proof (X10_urls_do_not_share_entries None None (ResJson 200 ada)
                (ResJson 200 (VNum 3)) surveys stats local_only ltac:(discriminate))
    as (_ & Hsame).
  rewrite Hsame. vm_compute. reflexivity.
Defined.

(** X11: a memoised response stays in the process that computed it.  When
    process [a], its client in place and the server reachable, misses and
    runs its handler, the body is stored in the memory of [a] only: the
    server's store is as it was (the one command sent is the GET of the
    lookup).  So a process [b] on the same server that has nothing truthy for
    the key in its own memory runs its handler too. *)
Theorem X11_memoized_in_one_process `{JSON} (req : Request) (duration code : Z)
    (data : value) (again : HandlerOut) (a b : World) :
  NodeCache.data (memoryCache a) !! cache_key req = None ->
  is_Some (redisClient a) ->
  Redis.up (server a) = true ->
  Redis.store (server a) !! cache_key req = None ->
  let a' := snd (cacheMiddleware (Some duration) (ResJson code data) req a) in
  Redis.up (server b) = true ->
  Redis.store (server b) !! cache_key req = Redis.store (server a') !! cache_key req ->
  truthy_opt (local_view (cache_key req) b) = false ->
  fst (cacheMiddleware (Some duration) (ResJson code data) req a)
    = {| next_called := true; sent := SentJson code data |}
  /\ Redis.store (server a') = Redis.store (server a)
  /\ Redis.wire (server a') = Redis.GET (cache_key req) :: Redis.wire (server a)
  /\ fst (cacheMiddleware (Some duration) again req b)
     = {| next_called := true; sent := original_send again |}.
Proof.
  intros Hloc Hc Hup Hst a' Hupb Hstb Hmiss.
  destruct (get_no_cached_response req a Hloc (or_intror (conj Hup Hst)))
    as (Hr & _ & Hnow1 & Hc1 & Hst1 & Hup1).
  pose proof (get_wire (cache_key req) a) as Hwire.
  rewrite local_view_lookup, Hloc, cache_key_inherited in Hwire. simpl in Hwire.
  destruct Hc as [c Hc]. rewrite Hc in Hwire.
  destruct (CacheService.get (cache_key req) a) as [r a1] eqn:Hget. simpl in *. subst r.
  subst a'.
  rewrite (middleware_miss_json (Some duration) code data VNull req a a1 Hget eq_refl) in *.
  simpl in *. rewrite set_unfold in *. simpl in *.
  split; [reflexivity|]. split; [exact Hst1|]. split; [exact Hwire|].
  apply (middleware_miss (Some duration) again req VNull b); [|reflexivity].
  rewrite get_answer, Hmiss. unfold remote_view.
  rewrite Hupb, Hstb, Hst1, Hst. destruct (redisClient b); reflexivity.
Qed.

Lemma X11_memoized_in_one_process_witness :
  let req := {| originalUrl := "/api/surveys" |} in
  let a' := snd (cacheMiddleware (Some 300) (ResJson 201 ada) req two_tier) in
  let b := boot (Some "redis://cache:6379") 5000 (server a') in
  fst (cacheMiddleware (Some 300) (ResJson 201 ada) req two_tier)
    = {| next_called := true; sent := SentJson 201 ada |}
  /\ Redis.store (server a') = Redis.store (server two_tier)
  /\ Redis.wire (server a') = Redis.GET (cache_key req) :: Redis.wire (server two_tier)
  /\ fst (cacheMiddleware (Some 300) (ResJson 201 ada) req b)
     = {| next_called := true; sent := original_send (ResJson 201 ada) |}.
Proof.
  intros req a' b.
  apply (X11_memoized_in_one_process req 300 201 ada (ResJson 201 ada) two_tier b).
  - reflexivity.
  - vm_compute. eexists. reflexivity.
  - reflexivity.
  - reflexivity.
  - reflexivity.
  - reflexivity.
  - reflexivity.
Defined.

(** X12: without a usable REDIS_URL the cache is local-only.  When the
    variable is unset or is the empty string no client is created, and every
    sequence of [get], [set] and [delete] calls returns normally and leaves
    the server as it was. *)
Theorem X12_no_url_is_local_only `{JSON} (REDIS_URL : option string) (clock : Z)
    (srv : Redis.Server) (ops : list Op) :
  REDIS_URL = None \/ REDIS_URL = Some "" ->
  let w := boot REDIS_URL clock srv in
  redisClient w = None
  /\ forallb returned (fst (run ops w)) = true
  /\ server (snd (run ops w)) = srv.
Proof.
  intros Hurl w.
  assert (Hc : redisClient w = None) by (destruct Hurl as [-> | ->]; reflexivity).
  rewrite (run_disabled ops w Hc).
  destruct (local_only_run_frame ops w) as (Hret & _ & Hsrv & _).
  split; [exact Hc|]. split; [exact Hret|]. exact Hsrv.
Qed.

Lemma X12_no_url_is_local_only_witness :
  let w := boot (Some "") 1000 quiet_server in
  redisClient w = None
  /\ forallb returned (fst (run [Set_ "k" ada None; Get "k"; Delete "k"] w)) = true
  /\ server (snd (run [Set_ "k" ada None; Get "k"; Delete "k"] w)) = quiet_server.
Proof.
  apply (X12_no_url_is_local_only (Some "") 1000 quiet_server
           [Set_ "k" ada None; Get "k"; Delete "k"]).
  right. reflexivity.
Defined.




(** ** The dashboard's request cache *)

Section Dashboard_requests.
Import OptimizedDashboard.
Context `{JSON}.

(** One call keeps what is known for the key: if the cache holds data with
    property [P] for it and a successful response would have [P] too, the
    answer has [P] and so does the data cached afterwards. *)
Lemma cachedRequest_keeps (P : value -> Prop) (url : string) (options : option value)
    (net : Network) (d : Dashboard) :
  (exists c, cache d !! cacheKey url (default (VObj []) options) = Some c /\ P (data c)) ->
  (forall body, response net = Some body -> P body) ->
  P (fst (cachedRequest url options net d))
  /\ exists c, cache (snd (cachedRequest url options net d))
                 !! cacheKey url (default (VObj []) options) = Some c /\ P (data c).
Proof.
  intros (c & Hc & Hp) Hnet. unfold cachedRequest. rewrite Hc. simpl.
  destruct (clock d - timestamp c <? 60000); simpl.
  - split; [exact Hp|]. exists c. split; assumption.
  - destruct (response net) as [body|] eqn:Hr; simpl.
    + split; [apply Hnet; reflexivity|].
      eexists. rewrite lookup_insert_eq. split; [reflexivity|]. simpl. apply Hnet. reflexivity.
    + split; [exact Hp|]. exists c. split; assumption.
Qed.

(** X14: fetched data is reused for one minute.  When nothing fresh is
    cached for the url and options, a successful request answers the
    response data and records it; the same call made less than 60 000 ms
    after the response arrived answers that data again, falsy or not,
    without a request and without any change to the state; from 60 000 ms on
    it sends a new request. *)
Theorem X14_fetched_data_is_reused_for_a_minute (url : string) (options : option value)
    (body : value) (took ms : Z) (net : Network) (d : Dashboard) :
  fresh (cache d !! cacheKey url (default (VObj []) options)) (clock d) = false ->
  let first := cachedRequest url options {| latency := took; response := Some body |} d in
  let again := cachedRequest url options net (wait ms (snd first)) in
  fst first = body
  /\ requested (snd first) = url :: requested d
  /\ (ms < 60000 -> again = (body, wait ms (snd first)))
  /\ (60000 <= ms -> requested (snd again) = url :: url :: requested d).
Proof.
  intros Hstale first again. subst again first.
  assert (Hfirst :
    cachedRequest url options {| latency := took; response := Some body |} d
    = (body,
       {| cache := <[cacheKey url (default (VObj []) options)
                     := {| data := body; timestamp := clock d + took |}]> (cache d);
          clock := clock d + took;
          requested := url :: requested d |})).
  { unfold cachedRequest. rewrite Hstale. reflexivity. }
  rewrite Hfirst. simpl.
  split; [reflexivity|]. split; [reflexivity|]. split.
  - intros Hms. unfold cachedRequest. simpl. rewrite lookup_insert_eq. simpl.
    replace (clock d + took + ms - (clock d + took) <? 60000) with true
      by (symmetry; apply Z.ltb_lt; lia).
    reflexivity.
  - intros Hms. unfold cachedRequest. simpl. rewrite lookup_insert_eq. simpl.
    replace (clock d + took + ms - (clock d + took) <? 60000) with false
      by (symmetry; apply Z.ltb_ge; lia).
    destruct (response net); reflexivity.
Qed.

(** X15: failures are not cached.  When nothing fresh is cached and the
    request fails, the call still returns: the data cached for the key,
    however old, or [null] when there is none.  The cache is left as it was,
    the old timestamp included, so the next call, whenever it comes, asks
    the network again and answers the response if there is one. *)
Theorem X15_failures_are_not_cached (url : string) (options : option value)
    (took ms : Z) (net : Network) (d : Dashboard) :
  fresh (cache d !! cacheKey url (default (VObj []) options)) (clock d) = false ->
  0 <= took ->
  0 <= ms ->
  let failed := cachedRequest url options {| latency := took; response := None |} d in
  let retry := cachedRequest url options net (wait ms (snd failed)) in
  fst failed
    = match cache d !! cacheKey url (default (VObj []) options) with
      | Some c => data c
      | None => VNull
      end
  /\ cache (snd failed) = cache d
  /\ requested (snd retry) = url :: url :: requested d
  /\ (forall body, response net = Some body -> fst retry = body).
Proof.
  intros Hstale Htook Hms failed retry. subst retry failed.
  assert (Hfailed :
    cachedRequest url options {| latency := took; response := None |} d
    = (default VNull (data <$> cache d !! cacheKey url (default (VObj []) options)),
       {| cache := cache d; clock := clock d + took; requested := url :: requested d |})).
  { unfold cachedRequest. rewrite Hstale. reflexivity. }
  rewrite Hfailed. simpl.
  assert (Hstill : fresh (cache d !! cacheKey url (default (VObj []) options))
                     (clock d + took + ms) = false).
  { unfold fresh in *. destruct (cache d !! cacheKey url (default (VObj []) options));
      [|reflexivity].
    apply Z.ltb_ge in Hstale. apply Z.ltb_ge. lia. }
  split; [destruct (cache d !! cacheKey url (default (VObj []) options)); reflexivity|].
  split; [reflexivity|].
  unfold cachedRequest. simpl. rewrite Hstill.
  split; [destruct (response net); reflexivity|].
  intros body ->. reflexivity.
Qed.

(** X16: the request cache never forgets.  Once data is cached for a url
    and options, every answer of the later calls for them, whatever the
    waits in between and whichever requests fail, is that data or the data
    of a successful response: any property shared by the cached data and by
    all successful responses holds of every answer. *)
Theorem X16_cached_requests_never_forget (P : value -> Prop) (url : string)
    (options : option value) (rounds : list (Z * Network)) (d : Dashboard) :
  (exists c, cache d !! cacheKey url (default (VObj []) options) = Some c /\ P (data c)) ->
  (forall ms net body, In (ms, net) rounds -> response net = Some body -> P body) ->
  Forall P (fst (poll url options rounds d)).
Proof.
  revert d. induction rounds as [|[ms net] rest IH]; intros d Hc Hnet; simpl.
  - constructor.
  - destruct (cachedRequest_keeps P url options net (wait ms d)) as (Hx & Hc1).
    + exact Hc.
    + intros body Hb. apply (Hnet ms net body); [left; reflexivity | exact Hb].
    + destruct (cachedRequest url options net (wait ms d)) as [x d1]. simpl in *.
      specialize (IH d1 Hc1).
      destruct (poll url options rest d1) as [xs d2]. simpl in *.
      constructor; [exact Hx|]. apply IH.
      intros ms' net' body Hin Hb. apply (Hnet ms' net' body); [right; exact Hin | exact Hb].
Qed.

End Dashboard_requests.

Lemma X14_fetched_data_is_reused_for_a_minute_witness :
  let d := {| OptimizedDashboard.cache := ∅; OptimizedDashboard.clock := 1000;
              OptimizedDashboard.requested := [] |} in
  let ok := {| OptimizedDashboard.latency := 40;
               OptimizedDashboard.response := Some (VNum 0) |} in
  let down := {| OptimizedDashboard.latency := 40; OptimizedDashboard.response := None |} in
  let first := OptimizedDashboard.cachedRequest "/api/surveys" None ok d in
  fst first = VNum 0
  /\ OptimizedDashboard.cachedRequest "/api/surveys" None down
       (OptimizedDashboard.wait 59999 (snd first))
     = (VNum 0, OptimizedDashboard.wait 59999 (snd first)).
Proof.
  intros d ok down first.
  pose proof (X14_fetched_data_is_reused_for_a_minute "/api/surveys" None (VNum 0) 40 59999
                down d eq_refl) as (Hfirst & _ & Hagain & _).
  split; [exact Hfirst|]. apply Hagain. lia.
Defined.

Lemma X15_failures_are_not_cached_witness :
  let d := {| OptimizedDashboard.cache := ∅; OptimizedDashboard.clock := 1000;
              OptimizedDashboard.requested := [] |} in
  let down := {| OptimizedDashboard.latency := 40; OptimizedDashboard.response := None |} in
  let failed := OptimizedDashboard.cachedRequest "/api/surveys" None down d in
  fst failed = VNull
  /\ OptimizedDashboard.requested
       (snd (OptimizedDashboard.cachedRequest "/api/surveys" None down
               (OptimizedDashboard.wait 5 (snd failed))))
     = ["/api/surveys"; "/api/surveys"].
Proof.
  intros d down failed.
  pose proof (X15_failures_are_not_cached "/api/surveys" None 40 5 down d eq_refl
                ltac:(lia) ltac:(lia)) as (Hans & _ & Hretry & _).
  split; [exact Hans | exact Hretry].
Defined.

Lemma X16_cached_requests_never_forget_witness :
  let ok := {| OptimizedDashboard.latency := 40;
               OptimizedDashboard.response := Some ada |} in
  let down := {| OptimizedDashboard.latency := 40; OptimizedDashboard.response := None |} in
  let d := snd (OptimizedDashboard.cachedRequest "/api/surveys" None ok
                  {| OptimizedDashboard.cache := ∅; OptimizedDashboard.clock := 1000;
                     OptimizedDashboard.requested := [] |}) in
  Forall (fun x => x <> VNull)
    (fst (OptimizedDashboard.poll "/api/surveys" None
            [(70000, down); (70000, down); (10, ok); (90000, down)] d)).
Proof.
  intros ok down d.
  apply (X16_cached_requests_never_forget (fun x => x <> VNull) "/api/surveys" None
           [(70000, down); (70000, down); (10, ok); (90000, down)] d).
  - eexists. split; [vm_compute; reflexivity|]. discriminate.
  - intros ms net body Hin Hresp. simpl in Hin.
    destruct Hin as [Heq|[Heq|[Heq|[Heq|[]]]]]; injection Heq as <- <-;
      simpl in Hresp; try discriminate; injection Hresp as <-; discriminate.
Defined.

(** ** The dashboard's virtual list *)

Section Dashboard_list.
Import OptimizedDashboard.

Lemma startIndex_bounds (scrollTop itemHeight : Z) :
  0 < itemHeight ->
  startIndex scrollTop itemHeight * itemHeight <= scrollTop
  /\ scrollTop < (startIndex scrollTop itemHeight + 1) * itemHeight.
Proof.
  intros Hh. unfold startIndex.
  pose proof (Z.div_mod scrollTop itemHeight ltac:(lia)) as Hdm.
  pose proof (Z.mod_pos_bound scrollTop itemHeight Hh) as Hm. nia.
Qed.

Lemma ceil_div_covers (a b : Z) : 0 < b -> a <= ceil_div a b * b.
Proof.
  intros Hb. unfold ceil_div.
  pose proof (Z.div_mod (- a) b ltac:(lia)) as Hdm.
  pose proof (Z.mod_pos_bound (- a) b Hb) as Hm. nia.
Qed.

Lemma In_render {A : Type} (items : list A) (containerHeight itemHeight scrollTop : Z)
    (r : Row A) :
  0 < itemHeight ->
  In r (render items containerHeight (Some itemHeight) scrollTop)
  <-> exists i,
        r = {| index := i; top := i * itemHeight; height := itemHeight;
               item := if i <? 0 then None else items !! Z.to_nat i |}
        /\ startIndex scrollTop itemHeight <= i
           < endIndex scrollTop containerHeight itemHeight (Z.of_nat (length items)).
Proof.
  intros Hh. unfold render. simpl.
  replace (itemHeight =? 0) with false by (symmetry; apply Z.eqb_neq; lia).
  rewrite in_map_iff. split.
  - intros (i & Hr & Hin). exists i. split; [symmetry; exact Hr|].
    apply list_elem_of_In, elem_of_seqZ in Hin. lia.
  - intros (i & Hr & Hi). exists i. split; [symmetry; exact Hr|].
    apply list_elem_of_In, elem_of_seqZ. lia.
Qed.

(** X17: every rendered row is an item of the list, placed where it
    belongs.  For a positive item height and a scroll offset that is not
    negative, each row stands for an index inside the list (its item exists),
    is placed at index * itemHeight, ends below the scroll offset and starts
    less than [visibleItems] item heights under it. *)
Theorem X17_rendered_rows_are_items {A : Type} (items : list A)
    (containerHeight itemHeight scrollTop : Z) (r : Row A) :
  0 < itemHeight ->
  0 <= scrollTop ->
  In r (render items containerHeight (Some itemHeight) scrollTop) ->
  0 <= index r < Z.of_nat (length items)
  /\ is_Some (item r)
  /\ item r = items !! Z.to_nat (index r)
  /\ top r = index r * itemHeight
  /\ top r < scrollTop + visibleItems containerHeight itemHeight * itemHeight
  /\ scrollTop < top r + itemHeight.
Proof.
  intros Hh Hs Hin. apply In_render in Hin as (i & -> & Hlo & Hhi); [|exact Hh]. simpl.
  unfold endIndex in Hhi.
  destruct (startIndex_bounds scrollTop itemHeight Hh) as (Hs1 & Hs2).
  assert (0 <= startIndex scrollTop itemHeight).
  { unfold startIndex. apply Z.div_pos; lia. }
  replace (i <? 0) with false by (symmetry; apply Z.ltb_ge; lia).
  split; [lia|]. split.
  - apply lookup_lt_is_Some. lia.
  - split; [reflexivity|]. split; [reflexivity|]. split; nia.
Qed.

(** X18: every visible item is rendered.  For a positive item height, each
    item of the list whose strip [i * itemHeight, (i + 1) * itemHeight)
    meets the viewport [scrollTop, scrollTop + containerHeight) has its row
    among the rendered ones. *)
Theorem X18_visible_items_are_rendered {A : Type} (items : list A)
    (containerHeight itemHeight scrollTop i : Z) :
  0 < itemHeight ->
  0 <= i < Z.of_nat (length items) ->
  i * itemHeight < scrollTop + containerHeight ->
  scrollTop < (i + 1) * itemHeight ->
  In {| index := i; top := i * itemHeight; height := itemHeight;
        item := items !! Z.to_nat i |}
     (render items containerHeight (Some itemHeight) scrollTop).
Proof.
  intros Hh Hi Hbelow Habove. apply In_render; [exact Hh|]. exists i. split.
  { replace (i <? 0) with false by (symmetry; apply Z.ltb_ge; lia). reflexivity. }
  unfold endIndex, visibleItems.
  destruct (startIndex_bounds scrollTop itemHeight Hh) as (Hs1 & Hs2).
  pose proof (ceil_div_covers containerHeight itemHeight Hh) as Hc.
  split; [nia|]. apply Z.min_glb_lt; [nia | lia].
Qed.

(** X19: the rendered rows are bounded by the viewport, not by the list.
    However many items there are and wherever the list is scrolled, at most
    ceil(containerHeight / itemHeight) + 2 rows are rendered. *)
Theorem X19_rendered_rows_are_bounded {A : Type} (items : list A)
    (containerHeight itemHeight scrollTop : Z) :
  0 < itemHeight ->
  0 <= containerHeight ->
  (length (render items containerHeight (Some itemHeight) scrollTop)
   <= Z.to_nat (visibleItems containerHeight itemHeight))%nat.
Proof.
  intros Hh Hc. unfold render. simpl.
  replace (itemHeight =? 0) with false by (symmetry; apply Z.eqb_neq; lia).
  rewrite length_map, length_seqZ.
  unfold endIndex. lia.
Qed.

End Dashboard_list.

Lemma X17_rendered_rows_are_items_witness :
  let items := ["a"; "b"; "c"; "d"; "e"; "f"; "g"; "h"] in
  let row := {| OptimizedDashboard.index := 6; OptimizedDashboard.top := 300;
                OptimizedDashboard.height := 50; OptimizedDashboard.item := Some "g" |} in
  In row (OptimizedDashboard.render items 120 (Some 50) 130)
  /\ OptimizedDashboard.item row = items !! Z.to_nat (OptimizedDashboard.index row).
Proof.
  intros items row.
  assert (Hin : In row (OptimizedDashboard.render items 120 (Some 50) 130)).
  { vm_compute. do 4 right. left. reflexivity. }
  split; [exact Hin|].
  apply (X17_rendered_rows_are_items items 120 50 130 row); [lia | lia | exact Hin].
Defined.

Lemma X18_visible_items_are_rendered_witness :
  let items := ["a"; "b"; "c"; "d"; "e"; "f"; "g"; "h"] in
  In {| OptimizedDashboard.index := 4; OptimizedDashboard.top := 4 * 50;
        OptimizedDashboard.height := 50; OptimizedDashboard.item := items !! Z.to_nat 4 |}
     (OptimizedDashboard.render items 120 (Some 50) 130).
Proof.
  intros items.
  apply (X18_visible_items_are_rendered items 120 50 130 4); simpl; lia.
Defined.

Lemma X19_rendered_rows_are_bounded_witness :
  Nat.le (length (OptimizedDashboard.render (replicate 1000 "row") 120 (Some 50) 4130)) 5.
Proof.
  apply (X19_rendered_rows_are_bounded (replicate 1000 "row") 120 50 4130); lia.
Defined.

(** ** The dashboard's debounce timers *)

Section Debounce_laws.
Import OptimizedDashboard.
Context {F : Type}.
Implicit Types p : Page F.

Lemma timeout_of_small (delay : Z) :
  0 <= delay < 2147483648 -> timeout_of delay = delay.
Proof.
  intros Hd. unfold timeout_of. rewrite Z.mod_small by lia. lia.
Qed.

Lemma timeout_of_negative (delay : Z) :
  -2147483648 <= delay < 0 \/ delay = 2147483648 -> timeout_of delay = 0.
Proof.
  unfold timeout_of. intros [Hd| ->]; [|reflexivity].
  rewrite Z.mod_small by lia. lia.
Qed.

Lemma tidy_new (t : Z) : tidy (new_page (F := F) t).
Proof.
  split; simpl; intros *; rewrite lookup_empty; discriminate.
Qed.

Lemma debounce_fields (key : string) (func : F) (delay : option Z) p :
  debounceTimers (debounce key func delay p) = <[key := next_timer p]> (debounceTimers p)
  /\ timers (debounce key func delay p)
     = <[next_timer p := (time p + timeout_of (default 300 delay), func)]>
         (match debounceTimers p !! key with
          | Some id => delete id (timers p)
          | None => timers p
          end)
  /\ next_timer (debounce key func delay p) = S (next_timer p)
  /\ time (debounce key func delay p) = time p.
Proof.
  unfold debounce, setTimeout, clearTimeout.
  destruct (debounceTimers p !! key); simpl; repeat split; reflexivity.
Qed.

Lemma tidy_debounce (key : string) (func : F) (delay : option Z) p :
  tidy p -> tidy (debounce key func delay p).
Proof.
  intros [Hrb Hab Har Hro].
  destruct (debounce_fields key func delay p) as (Hd & Ht & Hn & _).
  split; rewrite ?Hd, ?Ht, ?Hn.
  - intros k id Hk. destruct (decide (key = k)) as [<-|Hne].
    + rewrite lookup_insert_eq in Hk. injection Hk as <-. lia.
    + rewrite lookup_insert_ne in Hk by exact Hne. apply Hrb in Hk. lia.
  - intros id e He. destruct (decide (next_timer p = id)) as [<-|Hne]; [lia|].
    rewrite lookup_insert_ne in He by exact Hne.
    assert (timers p !! id = Some e) as He'.
    { destruct (debounceTimers p !! key) as [old|]; [|exact He].
      apply lookup_delete_Some in He. tauto. }
    apply Hab in He'. lia.
  - intros id e He. destruct (decide (next_timer p = id)) as [<-|Hne].
    + exists key. apply lookup_insert_eq.
    + rewrite lookup_insert_ne in He by exact Hne.
      destruct (debounceTimers p !! key) as [old|] eqn:Hold.
      * apply lookup_delete_Some in He as [Hoi He].
        destruct (Har id e He) as (k & Hk). exists k.
        rewrite lookup_insert_ne; [exact Hk|]. intros Heq. subst k. congruence.
      * destruct (Har id e He) as (k & Hk). exists k.
        rewrite lookup_insert_ne; [exact Hk|]. intros Heq. subst k. congruence.
  - intros k1 k2 id H1 H2.
    destruct (decide (key = k1)) as [<-|Hn1]; destruct (decide (key = k2)) as [<-|Hn2].
    + reflexivity.
    + rewrite lookup_insert_eq in H1. injection H1 as <-.
      rewrite lookup_insert_ne in H2 by exact Hn2. apply Hrb in H2. lia.
    + rewrite lookup_insert_eq in H2. injection H2 as <-.
      rewrite lookup_insert_ne in H1 by exact Hn1. apply Hrb in H1. lia.
    + rewrite lookup_insert_ne in H1 by exact Hn1.
      rewrite lookup_insert_ne in H2 by exact Hn2. exact (Hro k1 k2 id H1 H2).
Qed.

Lemma tidy_fire (id : nat) p : tidy p -> tidy (snd (fire id p)).
Proof.
  intros [Hrb Hab Har Hro]. unfold fire.
  destruct (timers p !! id) as [[due func]|]; [|split; assumption].
  destruct (due <=? time p); [|split; assumption].
  split; simpl; try assumption.
  - intros i e He. apply lookup_delete_Some in He as [_ He]. exact (Hab i e He).
  - intros i e He. apply lookup_delete_Some in He as [_ He]. exact (Har i e He).
Qed.

Lemma tidy_step (e : Event F) p : tidy p -> tidy (step e p).
Proof.
  destruct e as [key func delay|id|ms]; simpl.
  - apply tidy_debounce.
  - apply tidy_fire.
  - intros [Hrb Hab Har Hro]. split; assumption.
Qed.

Lemma tidy_play (events : list (Event F)) p : tidy p -> tidy (play events p).
Proof.
  revert p. induction events as [|e rest IH]; intros p Hp; simpl; [exact Hp|].
  apply IH, tidy_step, Hp.
Qed.

(** X20: at most one pending call per key.  After any sequence of
    [debounce] calls, timers firing and time passing on a new dashboard,
    every active timer is the timer registered for exactly one key: a key
    never has two calls pending. *)
Theorem X20_one_active_timer_per_key (events : list (Event F)) (t : Z) :
  let p := play events (new_page t) in
  forall id e, timers p !! id = Some e ->
    exists key, debounceTimers p !! key = Some id
                /\ forall other, debounceTimers p !! other = Some id -> other = key.
Proof.
  intros p id e He.
  destruct (tidy_play events (new_page t) (tidy_new t)) as [_ _ Har Hro].
  destruct (Har id e He) as (key & Hk). exists key. split; [exact Hk|].
  intros other Ho. exact (Hro other key id Ho Hk).
Qed.

(** X21: [debounce] replaces the pending call of its key and no other.  In
    any state reached from a new dashboard, after [debounce(key, func,
    delay)] the timer registered for the key is active, with [func] as its
    callback and due after the timeout the page makes of [delay] (300 when
    no delay is given): [delay] milliseconds from now when [delay] is a
    32-bit integer that is not negative, at once when it is a negative
    32-bit integer or 2147483648; the timer registered for the key before is no longer active;
    and the timers registered for the other keys are as they were. *)
Theorem X21_debounce_replaces_the_pending_call (events : list (Event F)) (t : Z)
    (key : string) (func : F) (delay : option Z) :
  let p := play events (new_page t) in
  let p' := debounce key func delay p in
  exists id,
    debounceTimers p' !! key = Some id
    /\ timers p' !! id = Some (time p + timeout_of (default 300 delay), func)
    /\ (0 <= default 300 delay < 2147483648 ->
        timeout_of (default 300 delay) = default 300 delay)
    /\ (-2147483648 <= default 300 delay < 0 \/ default 300 delay = 2147483648 ->
        timeout_of (default 300 delay) = 0)
    /\ (forall old, debounceTimers p !! key = Some old -> timers p' !! old = None)
    /\ (forall other i, other <> key -> debounceTimers p !! other = Some i ->
          debounceTimers p' !! other = Some i /\ timers p' !! i = timers p !! i).
Proof.
  intros p p'.
  destruct (tidy_play events (new_page t) (tidy_new t)) as [Hrb _ _ Hro]. fold p in Hrb, Hro.
  destruct (debounce_fields key func delay p) as (Hd & Ht & _). fold p' in Hd, Ht.
  exists (next_timer p). rewrite Hd, Ht. split; [apply lookup_insert_eq|].
  split; [apply lookup_insert_eq|].
  split; [apply timeout_of_small|]. split; [apply timeout_of_negative|]. split.
  - intros old Hold. rewrite Hold.
    rewrite lookup_insert_ne by (apply Hrb in Hold; lia). apply lookup_delete_eq.
  - intros other i Hne Hi. split.
    + rewrite lookup_insert_ne by congruence. exact Hi.
    + rewrite lookup_insert_ne by (apply Hrb in Hi; lia).
      destruct (debounceTimers p !! key) as [old|] eqn:Hold; [|reflexivity].
      apply lookup_delete_ne. intros ->. apply Hne. exact (Hro other key i Hi Hold).
Qed.

End Debounce_laws.

Lemma X20_one_active_timer_per_key_witness :
  let burst := [OptimizedDashboard.Debounce "search" "first" None;
                OptimizedDashboard.Debounce "search" "second" None;
                OptimizedDashboard.Debounce "filter" "third" (Some 100)] in
  let p := OptimizedDashboard.play burst (OptimizedDashboard.new_page 0) in
  OptimizedDashboard.timers p !! 2%nat = Some (300, "second")
  /\ OptimizedDashboard.timers p !! 1%nat = None
  /\ exists key, OptimizedDashboard.debounceTimers p !! key = Some 2%nat.
Proof.
  intros burst p. split; [vm_compute; reflexivity|]. split; [vm_compute; reflexivity|].
  destruct (X20_one_active_timer_per_key burst 0 2%nat (300, "second")) as (key & Hk & _).
  - vm_compute. reflexivity.
  - exists key. exact Hk.
Defined.

Lemma X21_debounce_replaces_the_pending_call_witness :
  let p := OptimizedDashboard.play [OptimizedDashboard.Debounce "search" "first" None]
             (OptimizedDashboard.new_page 0) in
  exists id,
    OptimizedDashboard.debounceTimers
      (OptimizedDashboard.debounce "search" "second" None p) !! "search" = Some id
    /\ OptimizedDashboard.timers
         (OptimizedDashboard.debounce "search" "second" None p) !! id
       = Some (300, "second").
Proof.
  intros p.
  destruct (X21_debounce_replaces_the_pending_call
              [OptimizedDashboard.Debounce "search" "first" None] 0 "search" "second" None)
    as (id & Hreg & Hact & _).
  exists id. split; [exact Hreg | exact Hact].
Defined.
